(** * HSBC statement parser: a shallow embedding and its checked properties

    The development follows [parser/transaction_extractor.py] and
    [parser/pdf_parser.py].

    Conventions of the embedding.
    - Text is a Rocq [string], read as the UTF-8 bytes of the Python [str].
      Character classes ([isdigit], [\d], [\s], [upper]) are the ASCII ones;
      bytes above 127 are carried through unchanged.  A statement that reads
      digits or white space out of a text says for which texts it speaks
      ([ascii_only], [pound_ascii]).
    - An amount is a rational [Q]: the decimal that its numeral spells.  The
      [float] that Python holds for it is the binary64 number nearest to that
      decimal, [float64] of it; for the numerals that the patterns admit, the
      sign and the zero test of the float are those of the decimal.  The
      arithmetic of the validator (sum, difference, absolute value,
      comparison) and the format [:.2f] are those of binary64, [binary64],
      over the IEEE 754 operations of [SpecFloat].  What does not depend on
      rounding is proved for any arithmetic, [arith].
    - A Python [dict] is a [gmap] and an [Optional] an [option].  What a
      collaborator ([pathlib], [pdfplumber]) reports is part of the input; an
      exception it raises is the outcome [Raise] with the text of the
      exception.  The extractor itself raises nothing on well-typed words.
    - [list.sort] and [sorted] are the stable insertion sort [sort_by]. *)

From Stdlib Require Import ZArith QArith Qabs String Ascii List Bool Lia Lqa.
From Stdlib Require Import Sorted Permutation SpecFloat.
From stdpp Require Import gmap strings list pretty.
Import ListNotations.

Local Open Scope string_scope.
Local Open Scope list_scope.
Local Open Scope Z_scope.

(** ** Characters and strings *)

Module Text.

Definition code (c : ascii) : N := N_of_ascii c.

(** ASCII decimal digit. *)
Definition is_digit (c : ascii) : bool :=
  ((48 <=? code c) && (code c <=? 57))%N.

(** White space of [str.strip] and of [\s], ASCII range:
    tab, LF, VT, FF, CR, the separators 28..31, and space. *)
Definition is_space (c : ascii) : bool :=
  (((9 <=? code c) && (code c <=? 13)) || ((28 <=? code c) && (code c <=? 32)))%N.

Definition upper_char (c : ascii) : ascii :=
  if ((97 <=? code c) && (code c <=? 122))%N
  then ascii_of_N (code c - 32) else c.

Definition lower_char (c : ascii) : ascii :=
  if ((65 <=? code c) && (code c <=? 90))%N
  then ascii_of_N (code c + 32) else c.

Fixpoint map_chars (f : ascii -> ascii) (s : string) : string :=
  match s with
  | EmptyString => EmptyString
  | String c s' => String (f c) (map_chars f s')
  end.

(** [str.upper] and [str.lower]. *)
Definition upper : string -> string := map_chars upper_char.
Definition lower : string -> string := map_chars lower_char.

Fixpoint all_chars (p : ascii -> bool) (s : string) : bool :=
  match s with
  | EmptyString => true
  | String c s' => p c && all_chars p s'
  end.

(** [str.isdigit]: non-empty and every character a digit. *)
Definition isdigit (s : string) : bool :=
  match s with
  | EmptyString => false
  | _ => all_chars is_digit s
  end.

(** [sep.join(parts)]. *)
Fixpoint join (sep : string) (parts : list string) : string :=
  match parts with
  | [] => EmptyString
  | [p] => p
  | p :: rest => p +:+ sep +:+ join sep rest
  end.

Definition starts_with (p s : string) : bool := String.prefix p s.

(** [needle in hay]. *)
Fixpoint contains (needle hay : string) : bool :=
  starts_with needle hay ||
  match hay with
  | EmptyString => false
  | String _ hay' => contains needle hay'
  end.

(** [s.replace(old, '')] for a non-empty [old]: every occurrence, scanning
    from the left, is dropped.  [skip] counts the characters of an
    occurrence still to be dropped. *)
Fixpoint remove_from (old : string) (skip : nat) (s : string) : string :=
  match s with
  | EmptyString => EmptyString
  | String c s' =>
      match skip with
      | S k => remove_from old k s'
      | O =>
          if starts_with old s
          then remove_from old (String.length old - 1) s'
          else String c (remove_from old 0 s')
      end
  end.

Definition remove (old s : string) : string := remove_from old 0 s.

Fixpoint lstrip (s : string) : string :=
  match s with
  | String c s' => if is_space c then lstrip s' else s
  | EmptyString => EmptyString
  end.

Fixpoint rstrip (s : string) : string :=
  match s with
  | EmptyString => EmptyString
  | String c s' =>
      match rstrip s' with
      | EmptyString => if is_space c then EmptyString else String c EmptyString
      | r => String c r
      end
  end.

(** [str.strip()]. *)
Definition strip (s : string) : string := rstrip (lstrip s).

(** Longest prefix whose characters satisfy [p], and the rest. *)
Fixpoint span (p : ascii -> bool) (s : string) : string * string :=
  match s with
  | String c s' =>
      if p c then let '(a, b) := span p s' in (String c a, b)
      else (EmptyString, s)
  | EmptyString => (EmptyString, EmptyString)
  end.

End Text.

(** ** The patterns of the source

    The regular expressions of the source are few and have no ambiguity: each
    repetition is followed by a character outside its class, so the greedy
    reading below is the only way they can match. *)

Module Re.

Definition matcher (A : Type) := string -> option (A * string).

(** A literal, compared as [re.IGNORECASE] does. *)
Fixpoint lit_ci (l : string) (s : string) : option string :=
  match l, s with
  | EmptyString, _ => Some s
  | String a l', String b s' =>
      if Ascii.eqb (Text.upper_char a) (Text.upper_char b) then lit_ci l' s' else None
  | String _ _, EmptyString => None
  end.

(** [l?] for a literal [l]. *)
Definition opt_ci (l : string) (s : string) : string :=
  match lit_ci l s with Some rest => rest | None => s end.

(** [\s*]. *)
Definition spaces (s : string) : string := Text.lstrip s.

Definition money_char (c : ascii) : bool :=
  Text.is_digit c || Ascii.eqb c ","%char.

(** [[\d,]+\.\d{2}]: the matched text and what follows it. *)
Definition money : matcher string :=
  fun s =>
    let '(body, rest) := Text.span money_char s in
    match body, rest with
    | String _ _, String dot (String d1 (String d2 rest')) =>
        if Ascii.eqb dot "."%char && Text.is_digit d1 && Text.is_digit d2
        then Some (body +:+ String dot (String d1 (String d2 EmptyString)), rest')
        else None
    | _, _ => None
    end.

(** [re.search]: the leftmost position at which the pattern matches. *)
Fixpoint search {A} (m : matcher A) (s : string) : option A :=
  match m s with
  | Some (a, _) => Some a
  | None =>
      match s with
      | EmptyString => None
      | String _ s' => search m s'
      end
  end.

End Re.

(** [AMOUNT_PATTERN = ^[\d,]+\.\d{2}$], used with [match]: [$] also accepts
    one final line feed. *)
Definition AMOUNT_PATTERN (text : string) : bool :=
  match Re.money text with
  | Some (_, rest) =>
      match rest with
      | EmptyString => true
      | String c EmptyString => Ascii.eqb c "010"%char
      | _ => false
      end
  | None => false
  end.

(** ** Amounts *)

Definition digit_value (c : ascii) : Z := Z.of_N (Text.code c) - 48.

Fixpoint digits_value (acc : Z) (s : string) : Z :=
  match s with
  | EmptyString => acc
  | String c s' => digits_value (10 * acc + digit_value c) s'
  end.

(** The part of [float(clean)] that the source can reach: a plain decimal
    numeral, digits with an optional fraction, at least one digit in all.
    The result is the decimal that the numeral spells; the float is the
    binary64 number nearest to it, [float64] below.  Any other text is taken
    as a [ValueError], here [None]: the signs, exponents, underscores and
    names ([inf], [nan]) that [float] also reads cannot occur after the
    amount patterns. *)
Definition float_of_decimal (clean : string) : option Q :=
  let '(int_part, rest) := Text.span Text.is_digit clean in
  let frac :=
    match rest with
    | EmptyString => Some EmptyString
    | String c frac =>
        if Ascii.eqb c "."%char && Text.all_chars Text.is_digit frac
        then Some frac else None
    end in
  match frac with
  | Some frac =>
      if (String.length int_part + String.length frac =? 0)%nat then None
      else
        let scale := Z.pow 10 (Z.of_nat (String.length frac)) in
        Some (Qmake (digits_value 0 int_part * scale + digits_value 0 frac)
                    (Z.to_pos scale))
  | None => None
  end.

Definition parse_amount (amount_str : string) : Q :=
  match amount_str with
  | EmptyString => 0%Q
  | _ =>
      let clean := Text.strip (Text.remove "£" (Text.remove "," amount_str)) in
      match float_of_decimal clean with
      | Some v => v
      | None => 0%Q
      end
  end.

(** Truth value of a float: non-zero. *)
Definition truthy (a : Q) : bool := negb (Qeq_bool a 0).

(** Truth value of an [Optional[float]]. *)
Definition truthy_opt (a : option Q) : bool :=
  match a with Some v => truthy v | None => false end.

(** ** Statement summary *)

Module StatementSummary.
Record t := mk {
  opening_balance : Q;
  closing_balance : Q;
  payments_in : Q;
  payments_out : Q;
}.
End StatementSummary.

(** The four patterns of [extract_summary], in the order of the dictionary. *)
Definition label (first second : string) (optional_s : bool) : Re.matcher string :=
  fun s =>
    match Re.lit_ci first s with
    | Some s1 =>
        let s2 := if optional_s then Re.opt_ci "s" s1 else s1 in
        match Re.lit_ci second (Re.spaces s2) with
        | Some s3 => Re.money (Re.opt_ci "£" (Re.spaces s3))
        | None => None
        end
    | None => None
    end.

(** [Opening\s*Balance\s*[£]?([\d,]+\.\d{2})] and its three siblings. *)
Definition OPENING_BALANCE : Re.matcher string := label "Opening" "Balance" false.
Definition CLOSING_BALANCE : Re.matcher string := label "Closing" "Balance" false.
Definition PAYMENTS_IN : Re.matcher string := label "Payment" "In" true.
Definition PAYMENTS_OUT : Re.matcher string := label "Payment" "Out" true.

Definition patterns : list (string * Re.matcher string) :=
  [ ("opening_balance", OPENING_BALANCE);
    ("closing_balance", CLOSING_BALANCE);
    ("payments_in", PAYMENTS_IN);
    ("payments_out", PAYMENTS_OUT) ].

Definition summary_step (text : string) (summary : gmap string Q)
    (item : string * Re.matcher string) : gmap string Q :=
  match Re.search item.2 text with
  | Some group => <[item.1 := parse_amount group]> summary
  | None => summary
  end.

Definition summary_dict (text : string) : gmap string Q :=
  fold_left (summary_step text) patterns ∅.

Definition extract_summary (text : string) : option StatementSummary.t :=
  let summary := summary_dict text in
  if (2 <=? size summary)%nat then
    Some (StatementSummary.mk
            (default 0%Q (summary !! "opening_balance"))
            (default 0%Q (summary !! "closing_balance"))
            (default 0%Q (summary !! "payments_in"))
            (default 0%Q (summary !! "payments_out")))
  else None.

(** ** Sorting

    [sorted] and [list.sort] with a key are stable and compare keys with [<]
    only.  For a total order on keys the result of a stable sort is unique,
    so an insertion sort that uses the same comparison computes it. *)

Section Sort.
Context {A K : Type} (ltb : K -> K -> bool) (key : A -> K).

Fixpoint insert_by (a : A) (l : list A) : list A :=
  match l with
  | [] => [a]
  | b :: l' => if ltb (key b) (key a) then b :: insert_by a l' else a :: b :: l'
  end.

Fixpoint sort_by (l : list A) : list A :=
  match l with
  | [] => []
  | a :: l' => insert_by a (sort_by l')
  end.

(** [a] may stand before [b]: the key of [b] is not below that of [a]. *)
Definition key_le (a b : A) : Prop := ltb (key b) (key a) = false.
End Sort.

Definition Qltb (a b : Q) : bool := negb (Qle_bool b a).

(** ** Dates *)

Module Date.
Record t := mk { year : Z; month : Z; day : Z }.

(** Order of [datetime] values that carry a date only. *)
Definition ltb (a b : t) : bool :=
  (year a <? year b)
  || ((year a =? year b)
      && ((month a <? month b) || ((month a =? month b) && (day a <? day b)))).

Definition eqb (a b : t) : bool :=
  (year a =? year b) && (month a =? month b) && (day a =? day b).

Definition is_leap (y : Z) : bool :=
  ((y mod 4 =? 0) && negb (y mod 100 =? 0)) || (y mod 400 =? 0).

Definition days_in_month (y m : Z) : Z :=
  if m =? 2 then (if is_leap y then 29 else 28)
  else if (m =? 4) || (m =? 6) || (m =? 9) || (m =? 11) then 30 else 31.
End Date.

Definition MONTHS : list string :=
  ["Jan"; "Feb"; "Mar"; "Apr"; "May"; "Jun";
   "Jul"; "Aug"; "Sep"; "Oct"; "Nov"; "Dec"].

(** White space as [\s+] reads it: what follows a run of one or more. *)
Definition spaces1 (s : string) : option string :=
  match s with
  | String c s' => if Text.is_space c then Some (Text.lstrip s') else None
  | EmptyString => None
  end.

Definition char_in (lo hi c : ascii) : bool :=
  ((Text.code lo <=? Text.code c) && (Text.code c <=? Text.code hi))%N.

(** [%d] is [3[0-1]|[1-2]\d|0[1-9]|[1-9]| [1-9]]: for each alternative, in
    this order, that matches where [s] begins, the day and what follows. *)
Definition strptime_d (s : string) : list (Z * string) :=
  let two (lo1 hi1 lo2 hi2 : ascii) : list (Z * string) :=
    match s with
    | String a (String b rest) =>
        if char_in lo1 hi1 a && char_in lo2 hi2 b
        then [(10 * digit_value a + digit_value b, rest)] else []
    | _ => []
    end in
  let one : list (Z * string) :=
    match s with
    | String a rest => if char_in "1"%char "9"%char a then [(digit_value a, rest)] else []
    | EmptyString => []
    end in
  let padded : list (Z * string) :=
    match s with
    | String sp (String a rest) =>
        if Ascii.eqb sp " "%char && char_in "1"%char "9"%char a
        then [(digit_value a, rest)] else []
    | _ => []
    end in
  two "3"%char "3"%char "0"%char "1"%char ++ two "1"%char "2"%char "0"%char "9"%char
  ++ two "0"%char "0"%char "1"%char "9"%char ++ one ++ padded.

(** [%b]: an abbreviated month name of the C locale where [s] begins, any
    case; its number, the position of the name, and what follows. *)
Fixpoint month_at (names : list string) (i : Z) (s : string) : option (Z * string) :=
  match names with
  | [] => None
  | name :: names' =>
      match Re.lit_ci name s with
      | Some rest => Some (i, rest)
      | None => month_at names' (i + 1) s
      end
  end.

Definition strptime_b (s : string) : option (Z * string) := month_at MONTHS 1 s.

(** [%y] is [\d\d]; 00..68 are 2000..2068 and 69..99 are 1969..1999. *)
Definition strptime_y (s : string) : option (Z * string) :=
  match s with
  | String a (String b rest) =>
      if Text.is_digit a && Text.is_digit b then
        let v := 10 * digit_value a + digit_value b in
        Some (if v <? 69 then 2000 + v else 1900 + v, rest)
      else None
  | _ => None
  end.

(** What follows the day in ['%d %b %y']: [\s+], the month, [\s+], the
    year; the fields read and the text left over. *)
Definition strptime_tail (day_rest : Z * string) : option (Z * Z * Z * string) :=
  let '(d, rest) := day_rest in
  match spaces1 rest with
  | Some rest1 =>
      match strptime_b rest1 with
      | Some (m, rest2) =>
          match spaces1 rest2 with
          | Some rest3 =>
              match strptime_y rest3 with
              | Some (y, rest4) => Some (d, m, y, rest4)
              | None => None
              end
          | None => None
          end
      | None => None
      end
  | None => None
  end.

(** The first alternative from which the rest of the pattern matches. *)
Fixpoint first_match {A B} (f : A -> option B) (l : list A) : option B :=
  match l with
  | [] => None
  | a :: l' => match f a with Some b => Some b | None => first_match f l' end
  end.

(** [datetime.strptime(data_string, '%d %b %y')]: the pattern is matched
    where the text begins, text left over is a [ValueError], and so is a day
    that the month does not have; [ValueError] is [None]. *)
Definition strptime (data_string : string) : option Date.t :=
  match first_match strptime_tail (strptime_d data_string) with
  | Some (d, m, y, EmptyString) =>
      if d <=? Date.days_in_month y m then Some (Date.mk y m d) else None
  | _ => None
  end.

Definition parse_date_parts (day month year : string) : option Date.t :=
  strptime (day +:+ " " +:+ month +:+ " " +:+ year).

(** ** Transactions *)

Definition PAYMENT_TYPES : list string :=
  ["DD"; "VIS"; "BP"; "CR"; "SO"; "OBP"; ")))"; "FPO"; "FPI"; "CHQ"; "ATM";
   "TFR"; "INT"; "DR"; "DL"].

Module Transaction.
Record t := mk {
  date : Date.t;
  payment_type : string;
  description : string;
  paid_out : option Q;
  paid_in : option Q;
  balance : option Q;
  raw_lines : list string;
}.
End Transaction.

(** A word of [pdfplumber]: the keys the extractor reads. *)
Module Word.
Record t := mk { text : string; x0 : Q; top : Q }.
End Word.

(** The dictionary [{'x': ..., 'text': ...}] stored per line. *)
Module LineWord.
Record t := mk { x : Q; text : string }.
End LineWord.

(** [round(top, 0)]: to the nearest integer, ties to the even one. *)
Definition py_round (q : Q) : Z :=
  let d := Z.pos (Qden q) in
  let f := Qnum q / d in
  let r := Qnum q mod d in
  match 2 * r ?= d with
  | Lt => f
  | Gt => f + 1
  | Eq => if Z.even f then f else f + 1
  end.

(** Column boundaries. *)
Definition COL_DATE_MAX : Q := 100.
Definition COL_PAYMENT_TYPE_MIN : Q := 100.
Definition COL_PAYMENT_TYPE_MAX : Q := 130.
Definition COL_DESCRIPTION_MIN : Q := 130.
Definition COL_PAID_OUT_MIN : Q := 350.
Definition COL_PAID_OUT_MAX : Q := 430.
Definition COL_PAID_IN_MIN : Q := 430.
Definition COL_PAID_IN_MAX : Q := 510.
Definition COL_BALANCE_MIN : Q := 510.

(** [lo <= x < hi]. *)
Definition in_band (lo x hi : Q) : bool := Qle_bool lo x && Qltb x hi.

(** What one line yields: the locals set by the loop over its words. *)
Module Line.
Record t := mk {
  date_parts : list string;
  payment_type : option string;
  description_words : list string;
  paid_out : option Q;
  paid_in : option Q;
  balance : option Q;
}.

Definition empty : t := mk [] None [] None None None.

Definition add_date_part (p : string) (l : t) : t :=
  mk (date_parts l ++ [p]) (payment_type l) (description_words l)
     (paid_out l) (paid_in l) (balance l).
Definition set_payment_type (p : string) (l : t) : t :=
  mk (date_parts l) (Some p) (description_words l)
     (paid_out l) (paid_in l) (balance l).
Definition add_description (w : string) (l : t) : t :=
  mk (date_parts l) (payment_type l) (description_words l ++ [w])
     (paid_out l) (paid_in l) (balance l).
Definition set_paid_out (a : Q) (l : t) : t :=
  mk (date_parts l) (payment_type l) (description_words l)
     (Some a) (paid_in l) (balance l).
Definition set_paid_in (a : Q) (l : t) : t :=
  mk (date_parts l) (payment_type l) (description_words l)
     (paid_out l) (Some a) (balance l).
Definition set_balance (a : Q) (l : t) : t :=
  mk (date_parts l) (payment_type l) (description_words l)
     (paid_out l) (paid_in l) (Some a).
End Line.

Definition mem_string (x : string) (l : list string) : bool :=
  existsb (String.eqb x) l.

(** The body of [for w in line_words]. *)
Definition classify_word (l : Line.t) (w : LineWord.t) : Line.t :=
  let x := LineWord.x w in
  let text := LineWord.text w in
  if Qltb x 100 then
    if Text.isdigit text && (String.length text <=? 2)%nat then
      Line.add_date_part text l
    else if mem_string text MONTHS then
      Line.add_date_part text l
    else if Text.isdigit text && (String.length text =? 2)%nat
            && (length (Line.date_parts l) =? 2)%nat then
      Line.add_date_part text l
    else l
  else if in_band COL_PAYMENT_TYPE_MIN x COL_PAYMENT_TYPE_MAX then
    if mem_string (Text.upper text) (map Text.upper PAYMENT_TYPES) then
      Line.set_payment_type (Text.upper text) l
    else if String.eqb text ")))" then
      Line.set_payment_type ")))" l
    else Line.add_description text l
  else if AMOUNT_PATTERN text then
    let amount := parse_amount text in
    if in_band COL_PAID_OUT_MIN x COL_PAID_OUT_MAX then Line.set_paid_out amount l
    else if in_band COL_PAID_IN_MIN x COL_PAID_IN_MAX then Line.set_paid_in amount l
    else if Qle_bool COL_BALANCE_MIN x then Line.set_balance amount l
    else Line.add_description text l
  else if in_band COL_DESCRIPTION_MIN x COL_PAID_OUT_MIN then
    Line.add_description text l
  else l.

Definition classify_line (line_words : list LineWord.t) : Line.t :=
  fold_left classify_word line_words Line.empty.

(** ** The assembler

    The locals of [extract_transactions_from_words] that outlive a line. *)

Record state := mk_state {
  current_date : option Date.t;
  current_payment_type : option string;
  current_description_parts : list string;
  current_paid_out : option Q;
  current_paid_in : option Q;
  current_balance : option Q;
  transactions : list Transaction.t;
  errors : list string;
}.

Definition initial_state : state :=
  mk_state None None [] None None None [] [].

(** Truth value of a string: non-empty; of an optional string: present and
    non-empty. *)
Definition nonempty (p : string) : bool :=
  match p with
  | String _ _ => true
  | EmptyString => false
  end.

Definition truthy_str (s : option string) : bool :=
  match s with
  | Some p => nonempty p
  | None => false
  end.

(** [current_paid_out or current_paid_in], as a condition. *)
Definition has_amount (s : state) : bool :=
  truthy_opt (current_paid_out s) || truthy_opt (current_paid_in s).

(** The transaction that [save_transaction] builds from the accumulator. *)
Definition candidate (s : state) (d : Date.t) (p : string) : Transaction.t :=
  Transaction.mk d p (Text.join " " (current_description_parts s))
    (current_paid_out s) (current_paid_in s) (current_balance s) [].

Definition save_transaction (s : state) : state :=
  let transactions' :=
    match current_date s, current_payment_type s with
    | Some d, Some p =>
        if nonempty p && has_amount s
        then transactions s ++ [candidate s d p]
        else transactions s
    | _, _ => transactions s
    end in
  mk_state (current_date s) (current_payment_type s) [] None None None
           transactions' (errors s).

Definition set_current_date (d : option Date.t) (s : state) : state :=
  mk_state d (current_payment_type s) (current_description_parts s)
           (current_paid_out s) (current_paid_in s) (current_balance s)
           (transactions s) (errors s).

Definition set_current_payment_type (p : option string) (s : state) : state :=
  mk_state (current_date s) p (current_description_parts s)
           (current_paid_out s) (current_paid_in s) (current_balance s)
           (transactions s) (errors s).

Definition extend_description (ws : list string) (s : state) : state :=
  mk_state (current_date s) (current_payment_type s)
           (current_description_parts s ++ ws)
           (current_paid_out s) (current_paid_in s) (current_balance s)
           (transactions s) (errors s).

(** [if v is not None: current = v], for the three amount slots. *)
Definition set_amounts (l : Line.t) (s : state) : state :=
  let keep (new old : option Q) :=
    match new with Some _ => new | None => old end in
  mk_state (current_date s) (current_payment_type s) (current_description_parts s)
           (keep (Line.paid_out l) (current_paid_out s))
           (keep (Line.paid_in l) (current_paid_in s))
           (keep (Line.balance l) (current_balance s))
           (transactions s) (errors s).

Definition SKIP_MARKERS : list string :=
  ["CONTACT TEL"; "TEXT PHONE"; "WWW.HSBC"; "YOUR STATEMENT";
   "ACCOUNT NAME"; "SORTCODE"; "SHEET NUMBER"; "BRANCH IDENTIFIER";
   "INTERNATIONAL BANK"; "OPENINGBALANCE"; "CLOSINGBALANCE";
   "PAYMENTS IN"; "PAYMENTS OUT"; "ARRANGEDOVERDRAFT";
   "HANOVER STREET"; "PAYMENT TYPE AND DETAILS";
   "YOUR BANK ACCOUNT"; "YOUR DEPOSIT"; "FINANCIAL SERVICES";
   "CREDIT INTEREST"; "DEBIT INTEREST"; "AER BALANCE"; "EAR BALANCE"].

(** The four steps taken once the words of a line are classified. *)
Definition on_date (l : Line.t) (s : state) : state :=
  match Line.date_parts l with
  | [day; month; year] =>
      set_current_date (parse_date_parts day month year) (save_transaction s)
  | _ => s
  end.

Definition on_payment_type (l : Line.t) (s : state) : state :=
  if truthy_str (Line.payment_type l) then
    set_current_payment_type (Line.payment_type l)
      (if truthy_str (current_payment_type s) && has_amount s
       then save_transaction s else s)
  else s.

Definition on_description (l : Line.t) (s : state) : state :=
  match Line.description_words l with
  | _ :: _ =>
      if truthy_str (current_payment_type s)
      then extend_description (Line.description_words l) s else s
  | [] => s
  end.

Definition apply_line (l : Line.t) (s : state) : state :=
  set_amounts l (on_description l (on_payment_type l (on_date l s))).

(** The body of [for y in sorted(lines.keys())], given the sorted words. *)
Definition process_line (s : state) (line_words : list LineWord.t) : state :=
  let line_text := Text.upper (Text.join " " (map LineWord.text line_words)) in
  if existsb (fun skip => Text.contains skip line_text) SKIP_MARKERS then s
  else if Text.contains "BALANCEBROUGHTFORWARD" (Text.remove " " line_text) then s
  else if Text.contains "BALANCECARRIEDFORWARD" (Text.remove " " line_text) then
    set_current_payment_type None (save_transaction s)
  else apply_line (classify_line line_words) s.

(** The dictionary [lines] of one page: rounded [top] to the words seen at
    it, in the order of the page. *)
Definition add_word (lines : gmap Z (list LineWord.t)) (w : Word.t)
    : gmap Z (list LineWord.t) :=
  let y := py_round (Word.top w) in
  <[y := default [] (lines !! y) ++ [LineWord.mk (Word.x0 w) (Word.text w)]]> lines.

Definition group_lines (words : list Word.t) : gmap Z (list LineWord.t) :=
  fold_left add_word words ∅.

(** [sorted(lines.keys())]. *)
Definition sorted_keys (lines : gmap Z (list LineWord.t)) : list Z :=
  sort_by Z.ltb id (map fst (map_to_list lines)).

(** The lines of a page as the loop visits them: top to bottom, each one
    sorted by [x]. *)
Definition page_lines (words : list Word.t) : list (list LineWord.t) :=
  let lines := group_lines words in
  map (fun y => sort_by Qltb LineWord.x (default [] (lines !! y)))
      (sorted_keys lines).

Definition process_page (s : state) (words : list Word.t) : state :=
  fold_left process_line (page_lines words) s.

(** The state when the loop over the pages ends. *)
Definition run_pages (pages_words : list (list Word.t)) : state :=
  fold_left process_page pages_words initial_state.

Definition extract_transactions_from_words (pages_words : list (list Word.t))
    : list Transaction.t * list string :=
  let s := save_transaction (run_pages pages_words) in
  (sort_by Date.ltb Transaction.date (transactions s), errors s).

(** The scenario of the specification: a date line, then an anchor line. *)
Definition scenario_page : list Word.t :=
  [ Word.mk "5" 50 100; Word.mk "Jan" 60 100; Word.mk "24" 80 100;
    Word.mk "DD" 110 120; Word.mk "Direct" 140 120; Word.mk "Debit" 180 120;
    Word.mk "ABC" 220 120; Word.mk "12.50" 400 120 ].

(** ** The validator *)

(** *** Floating point

    A Python [float] is a binary64 number: a [spec_float] of precision 53 and
    largest exponent 1024, with the operations of IEEE 754 as [SpecFloat]
    defines them, rounding to nearest, ties to even. *)
Definition prec : Z := 53.
Definition emax : Z := 1024.

(** [float(clean)] for the decimal [q] that [clean] spells: the binary64
    number nearest to [q], an infinity when [q] is out of range. *)
Definition float64 (q : Q) : spec_float :=
  let nearest (s : bool) (a : positive) :=
    let '(m, e, l) := SFdiv_core_binary prec emax (Zpos a) 0 (Zpos (Qden q)) 0 in
    binary_round_aux prec emax s m e l in
  match Qnum q with
  | Z0 => S754_zero false
  | Zpos a => nearest false a
  | Zneg a => nearest true a
  end.

Definition is_zero (x : spec_float) : bool :=
  match x with S754_zero _ => true | _ => false end.

Definition is_finite (x : spec_float) : bool :=
  match x with S754_zero _ | S754_finite _ _ _ => true | _ => false end.

(** The loop of the built-in [sum] once its result is a float, [f] the
    running sum and [c] the compensation.  An item that is zero is the int
    [0] of [v or 0] (a float that is zero is false, so [or] has replaced
    it), added as [(double)0].  From CPython 3.12 on a float item is added
    with Neumaier's compensation; before, it is added to the running sum. *)
Fixpoint sum_floats (neumaier : bool) (f c : spec_float) (items : list spec_float)
    : spec_float :=
  match items with
  | [] =>
      if neumaier && negb (is_zero c) && is_finite c then SFadd prec emax f c else f
  | x :: rest =>
      if is_zero x then
        sum_floats neumaier (SFadd prec emax f (S754_zero false)) c rest
      else if neumaier then
        let t := SFadd prec emax f x in
        let c' :=
          if SFleb (SFabs x) (SFabs f)
          then SFadd prec emax c (SFadd prec emax (SFsub prec emax f t) x)
          else SFadd prec emax c (SFadd prec emax (SFsub prec emax x t) f) in
        sum_floats neumaier t c' rest
      else sum_floats neumaier (SFadd prec emax f x) c rest
  end.

(** The built-in [sum], from the int [0]: ints are summed as ints, and the
    first float item [x] makes the result [0 + x]. *)
Fixpoint py_sum (neumaier : bool) (items : list spec_float) : spec_float :=
  match items with
  | [] => S754_zero false
  | x :: rest =>
      if is_zero x then py_sum neumaier rest
      else sum_floats neumaier x (S754_zero false) rest
  end.

(** The value of a finite float. *)
Definition finite_value (m : positive) (e : Z) : Q :=
  match e with
  | Zneg k => Qmake (Zpos m) (Pos.pow 2 k)
  | _ => Qmake (Zpos m * 2 ^ e) 1
  end.

(** The format [:.2f]: the sign, then the value rounded to hundredths, ties
    to even. *)
Definition format_2f (x : spec_float) : string :=
  let digits (s : bool) (cents : Z) : string :=
    let whole := cents / 100 in
    let part := cents mod 100 in
    (if s then "-" else "")
    +:+ pretty whole +:+ "." +:+ (if part <? 10 then "0" else "") +:+ pretty part in
  match x with
  | S754_nan => "nan"
  | S754_infinity s => if s then "-inf" else "inf"
  | S754_zero s => digits s 0
  | S754_finite s m e => digits s (py_round (finite_value m e * 100)%Q)
  end.

(** *** The interface

    Arithmetic of Python floats as the validator and the CSV writer use it.
    The amounts of the model are the decimals that the numerals spell;
    [of_decimal] gives the float that Python holds for one.  What does not
    depend on rounding is proved for any arithmetic; [binary64] is the
    arithmetic of the source. *)
Record arith := mk_arith {
  num : Type;                    (* the values of a float *)
  of_decimal : Q -> num;         (* [float] of a numeral *)
  fsum : list num -> num;        (* the built-in [sum] *)
  fadd : num -> num -> num;
  fsub : num -> num -> num;
  fabs : num -> num;
  fgt : num -> num -> bool;      (* [a > b] *)
  fmt2 : num -> string;          (* the format [:.2f] *)
}.

Definition binary64 (neumaier : bool) : arith :=
  mk_arith spec_float float64 (py_sum neumaier) (SFadd prec emax) (SFsub prec emax)
           SFabs (fun a b => SFltb b a) format_2f.

(** [v or 0]. *)
Definition or_zero (a : option Q) : Q :=
  match a with
  | Some v => if truthy v then v else 0%Q
  | None => 0%Q
  end.

Definition tolerance : Q := 2 # 100.

Section Validator.
Variable ar : arith.

Definition total_in (txs : list Transaction.t) : num ar :=
  fsum ar (map (fun t => of_decimal ar (or_zero (Transaction.paid_in t))) txs).

Definition total_out (txs : list Transaction.t) : num ar :=
  fsum ar (map (fun t => of_decimal ar (or_zero (Transaction.paid_out t))) txs).

Definition expected_closing (txs : list Transaction.t) (s : StatementSummary.t)
    : num ar :=
  fsub ar (fadd ar (of_decimal ar (StatementSummary.opening_balance s)) (total_in txs))
       (total_out txs).

(** The three conditions under which a message is appended. *)
Definition in_mismatch (txs : list Transaction.t) (s : StatementSummary.t) : bool :=
  fgt ar (fabs ar (fsub ar (total_in txs)
                     (of_decimal ar (StatementSummary.payments_in s))))
      (of_decimal ar tolerance).

Definition out_mismatch (txs : list Transaction.t) (s : StatementSummary.t) : bool :=
  fgt ar (fabs ar (fsub ar (total_out txs)
                     (of_decimal ar (StatementSummary.payments_out s))))
      (of_decimal ar tolerance).

Definition closing_mismatch (txs : list Transaction.t) (s : StatementSummary.t) : bool :=
  fgt ar (fabs ar (fsub ar (expected_closing txs s)
                     (of_decimal ar (StatementSummary.closing_balance s))))
      (of_decimal ar tolerance).

Definition in_message (txs : list Transaction.t) (s : StatementSummary.t) : string :=
  "Payments In mismatch: extracted £" +:+ fmt2 ar (total_in txs)
  +:+ ", expected £" +:+ fmt2 ar (of_decimal ar (StatementSummary.payments_in s))
  +:+ " (diff: £"
  +:+ fmt2 ar (fabs ar (fsub ar (total_in txs)
                          (of_decimal ar (StatementSummary.payments_in s))))
  +:+ ")".

Definition out_message (txs : list Transaction.t) (s : StatementSummary.t) : string :=
  "Payments Out mismatch: extracted £" +:+ fmt2 ar (total_out txs)
  +:+ ", expected £" +:+ fmt2 ar (of_decimal ar (StatementSummary.payments_out s))
  +:+ " (diff: £"
  +:+ fmt2 ar (fabs ar (fsub ar (total_out txs)
                          (of_decimal ar (StatementSummary.payments_out s))))
  +:+ ")".

Definition closing_message (txs : list Transaction.t) (s : StatementSummary.t) : string :=
  "Balance calculation: £" +:+ fmt2 ar (of_decimal ar (StatementSummary.opening_balance s))
  +:+ " + £" +:+ fmt2 ar (total_in txs)
  +:+ " - £" +:+ fmt2 ar (total_out txs)
  +:+ " = £" +:+ fmt2 ar (expected_closing txs s)
  +:+ ", expected £" +:+ fmt2 ar (of_decimal ar (StatementSummary.closing_balance s)).

Definition validate_transactions (txs : list Transaction.t)
    (summary : option StatementSummary.t) : bool * list string :=
  match txs with
  | [] => (false, ["No transactions extracted"])
  | _ :: _ =>
      match summary with
      | None => (true, ["Could not extract statement summary for validation"])
      | Some s =>
          let errors1 := if in_mismatch txs s then [in_message txs s] else [] in
          let errors2 := if out_mismatch txs s then errors1 ++ [out_message txs s]
                         else errors1 in
          let errors3 := if closing_mismatch txs s then errors2 ++ [closing_message txs s]
                         else errors2 in
          ((length errors3 =? 0)%nat, errors3)
      end
  end.
End Validator.

(** ** The parser *)

(** What a call to a collaborator gives: a value, or an exception with its
    text. *)
Inductive outcome (A : Type) : Type :=
| Ok (a : A)
| Raise (msg : string).
Arguments Ok {A} a.
Arguments Raise {A} msg.

(** A page as [pdfplumber] shows it: the results of [extract_words] and of
    [extract_text] (which may be [None]). *)
Module Page.
Record t := mk {
  extract_words : outcome (list Word.t);
  extract_text : outcome (option string);
}.
End Page.

(** The file behind a path: what [pathlib] and [pdfplumber.open] report. *)
Module Pdf.
Record t := mk {
  path : string;
  name : string;
  suffix : string;
  exists_ : bool;
  pages : outcome (list Page.t);
}.
End Pdf.

Module ParseResult.
Record t := mk {
  success : bool;
  transactions : list Transaction.t;
  summary : option StatementSummary.t;
  errors : list string;
  warnings : list string;
  filename : string;
  page_count : nat;
}.
End ParseResult.

Definition newline : string := String "010"%char EmptyString.

(** The body of the loop of [_extract_words_and_text]: the words are
    appended before the text is read, so a failure of [extract_text] appends
    a second, empty entry for the page. *)
Definition read_page (acc : list (list Word.t) * list string) (page : Page.t)
    : list (list Word.t) * list string :=
  let '(pages_words, pages_text) := acc in
  match Page.extract_words page with
  | Raise _ => (pages_words ++ [[]], pages_text ++ [""])
  | Ok words =>
      let pages_words' :=
        pages_words ++ [match words with [] => [] | _ :: _ => words end] in
      match Page.extract_text page with
      | Raise _ => (pages_words' ++ [[]], pages_text ++ [""])
      | Ok text => (pages_words', pages_text ++ [default "" text])
      end
  end.

Definition _extract_words_and_text (pages : list Page.t)
    : list (list Word.t) * list string :=
  fold_left read_page pages ([], []).

Section Parser.
Variable ar : arith.

(** The statements of [parse] between the extraction and [return]. *)
Definition parse_content (filename : string) (pages_words : list (list Word.t))
    (pages_text : list string) : ParseResult.t :=
  let page_count := length pages_words in
  match pages_words with
  | [] =>
      ParseResult.mk false [] None ["No content could be extracted from PDF"] []
                     filename page_count
  | _ :: _ =>
      let full_text := Text.join newline pages_text in
      let summary := extract_summary full_text in
      let '(transactions, parse_errors) :=
        extract_transactions_from_words pages_words in
      let errors := [] ++ parse_errors in
      let warnings :=
        match summary with
        | Some s =>
            let '(is_valid, validation_errors) :=
              validate_transactions ar transactions (Some s) in
            if negb is_valid then validation_errors else []
        | None => []
        end in
      ParseResult.mk ((length errors =? 0)%nat && (0 <? length transactions)%nat)
                     transactions summary errors warnings filename page_count
  end.

Definition parse (pdf : Pdf.t) : ParseResult.t :=
  let failed msg := ParseResult.mk false [] None [msg] [] (Pdf.name pdf) 0%nat in
  if negb (Pdf.exists_ pdf) then failed ("File not found: " +:+ Pdf.path pdf)
  else if negb (String.eqb (Text.lower (Pdf.suffix pdf)) ".pdf") then
    failed ("Not a PDF file: " +:+ Pdf.path pdf)
  else
    match Pdf.pages pdf with
    | Raise e => failed ("Error parsing PDF: " +:+ e)
    | Ok pages =>
        let '(pages_words, pages_text) := _extract_words_and_text pages in
        parse_content (Pdf.name pdf) pages_words pages_text
    end.
End Parser.

(** ** Vocabulary of the statements, and sample inputs *)

Definition nonneg_opt (a : option Q) : Prop :=
  match a with Some v => (0 <= v)%Q | None => True end.

Definition positive_opt (a : option Q) : Prop :=
  match a with Some v => (0 < v)%Q | None => False end.

(** The amounts a line yields. *)
Definition line_amounts_nonneg (l : Line.t) : Prop :=
  nonneg_opt (Line.paid_out l) /\ nonneg_opt (Line.paid_in l).

(** What every emitted transaction satisfies. *)
Definition amounts_ok (t : Transaction.t) : Prop :=
  nonneg_opt (Transaction.paid_out t) /\ nonneg_opt (Transaction.paid_in t)
  /\ (positive_opt (Transaction.paid_out t) \/ positive_opt (Transaction.paid_in t)).

Definition state_amounts_ok (s : state) : Prop :=
  nonneg_opt (current_paid_out s) /\ nonneg_opt (current_paid_in s)
  /\ Forall amounts_ok (transactions s).

(** [a] is not later than [b]. *)
Definition date_le (a b : Date.t) : Prop :=
  Date.year a < Date.year b
  \/ (Date.year a = Date.year b
      /\ (Date.month a < Date.month b
          \/ (Date.month a = Date.month b /\ Date.day a <= Date.day b))).

(** The transactions in the order in which they were finalized. *)
Definition finalized (pages_words : list (list Word.t)) : list Transaction.t :=
  transactions (save_transaction (run_pages pages_words)).

Definition holds_date (s : state) : Prop := current_date s <> None.

(** A payment type is held: a code, which is never the empty string. *)
Definition holds_payment_type (s : state) : Prop :=
  exists p, current_payment_type s = Some p /\ p <> "".

(** An amount slot is filled with a non-zero amount. *)
Definition nonzero_amount (a : option Q) : Prop :=
  exists v, a = Some v /\ ~ (v == 0)%Q.

Definition complete (s : state) : Prop :=
  holds_date s /\ holds_payment_type s
  /\ (nonzero_amount (current_paid_out s) \/ nonzero_amount (current_paid_in s)).

(** A candidate whose only amount is zero: a date line, then an anchor line
    with [0.00] in the paid-out band. *)
Definition zero_amount_page : list Word.t :=
  [ Word.mk "5" 50 100; Word.mk "Jan" 60 100; Word.mk "24" 80 100;
    Word.mk "DD" 110 120; Word.mk "Fee" 140 120; Word.mk "0.00" 400 120 ].

(** The three amount bands. *)
Definition in_amount_band (x : Q) : bool :=
  in_band COL_PAID_OUT_MIN x COL_PAID_OUT_MAX
  || in_band COL_PAID_IN_MIN x COL_PAID_IN_MAX
  || Qle_bool COL_BALANCE_MIN x.

(** The characters left once the commas are gone: digits, the full stop and
    a closing line feed. None of them starts the pound sign. *)
Definition plain_char (c : ascii) : bool :=
  Text.is_digit c || Ascii.eqb c "." || Ascii.eqb c "010".

(** The end of a numeral: a full stop, two digits, and the line feed that
    [$] lets through, if any. *)
Definition numeral_end (d1 d2 : ascii) (final_newline : bool) : string :=
  String "." (String d1 (String d2 (if final_newline then newline else ""))).

(** The value of a numeral: the digits [D] of its integer part, commas
    dropped, and the two digits of its fraction. *)
Definition numeral_value (D : string) (d1 d2 : ascii) : Q :=
  Qmake (digits_value 0 D * 100 + digits_value 0 (String d1 (String d2 ""))) 100.

(** The pattern is found somewhere in the text. *)
Definition found (m : Re.matcher string) (text : string) : bool :=
  match Re.search m text with Some _ => true | None => false end.

(** How many of the four patterns are found. *)
Definition labels_found (text : string) : nat :=
  length (List.filter (fun item : string * Re.matcher string => found item.2 text)
            patterns).

Definition three_labels_text : string :=
  "Opening Balance £1,234.56 Closing Balance 10.00 Payments In 5.00".


(** A document with one page, the scenario, whose text states totals that
    the transactions do not meet. *)
Definition mismatch_pdf : Pdf.t :=
  Pdf.mk "statement.pdf" "statement.pdf" ".pdf" true
    (Ok [Page.mk (Ok scenario_page)
           (Ok (Some "Opening Balance 100.00 Closing Balance 80.00 Payments In 0.00 Payments Out 12.00"))]).

Definition scenario_transaction : Transaction.t :=
  Transaction.mk (Date.mk 2024 1 5) "DD" "Direct Debit ABC"
    (Some (1250 # 100)%Q) None None [].

Definition mismatch_summary : StatementSummary.t :=
  StatementSummary.mk (10000 # 100) (8000 # 100) (0 # 100) (1200 # 100).

(** The page yields no word: [extract_words] is empty or raises. *)
Definition no_words (page : Page.t) : Prop :=
  match Page.extract_words page with
  | Ok [] => True
  | Ok (_ :: _) => False
  | Raise _ => True
  end.

(** One page, no words, no text. *)
Definition blank_pdf : Pdf.t :=
  Pdf.mk "blank.pdf" "blank.pdf" ".pdf" true (Ok [Page.mk (Ok []) (Ok None)]).

(** One page, the scenario, and a text without any of the labels. *)
Definition no_summary_pdf : Pdf.t :=
  Pdf.mk "statement.pdf" "statement.pdf" ".pdf" true
    (Ok [Page.mk (Ok scenario_page) (Ok (Some "5 Jan 24 DD Direct Debit ABC 12.50"))]).

(** Three transactions, the first one dated after the other two. *)
Definition unordered_page : list Word.t :=
  [ Word.mk "6" 50 100; Word.mk "Jan" 60 100; Word.mk "24" 80 100;
    Word.mk "DD" 110 110; Word.mk "A" 140 110; Word.mk "1.00" 400 110;
    Word.mk "5" 50 120; Word.mk "Jan" 60 120; Word.mk "24" 80 120;
    Word.mk "VIS" 110 130; Word.mk "B" 140 130; Word.mk "2.00" 400 130;
    Word.mk "CR" 110 140; Word.mk "C" 140 140; Word.mk "3.00" 450 140 ].

(** ** Vocabulary of the further properties *)

(** A date of the calendar, in the range that [%y] can give. *)
Definition valid_date (d : Date.t) : Prop :=
  1969 <= Date.year d <= 2068
  /\ 1 <= Date.month d <= 12
  /\ 1 <= Date.day d <= Date.days_in_month (Date.year d) (Date.month d).

(** Every byte is below 128: the text is ASCII. *)
Definition ascii_only (s : string) : bool :=
  Text.all_chars (fun c => (Text.code c <? 128)%N) s.

(** A run of one or more white-space characters. *)
Definition blank (w : string) : Prop :=
  w <> "" /\ Text.all_chars Text.is_space w = true.

(** [D] spells the day [d]: one or two digits, or a space and a digit. *)
Definition day_numeral (D : string) (d : Z) : Prop :=
  (String.length D <= 2)%nat
  /\ Text.isdigit (Text.lstrip D) = true
  /\ digits_value 0 (Text.lstrip D) = d.

(** [M] is the abbreviation of month [m], in any case. *)
Definition month_name (M : string) (m : Z) : Prop :=
  nth_error (map Text.upper MONTHS) (Z.to_nat (m - 1)) = Some (Text.upper M).

(** [Y] spells the two last digits of the year [y]. *)
Definition year_numeral (Y : string) (y : Z) : Prop :=
  String.length Y = 2%nat /\ Text.isdigit Y = true /\ y mod 100 = digits_value 0 Y.

(** The date and the payment type held by the accumulator, and those of the
    transactions emitted so far, satisfy [Pd] and [Pp]. *)
Definition fields_ok (Pd : Date.t -> Prop) (Pp : string -> Prop) (s : state) : Prop :=
  (forall d, current_date s = Some d -> Pd d)
  /\ (forall p, current_payment_type s = Some p -> Pp p)
  /\ Forall (fun t => Pd (Transaction.date t) /\ Pp (Transaction.payment_type t))
       (transactions s).

(** [extract_words] gave the words of the page and [extract_text] then
    raised. *)
Definition text_fails_after_words (page : Page.t) : bool :=
  match Page.extract_words page, Page.extract_text page with
  | Ok _, Raise _ => true
  | _, _ => false
  end.

(** The transactions are in order of date, and each has a payment type of the
    vocabulary, a date of the calendar and amounts as [amounts_ok] says. *)
Definition well_formed (txs : list Transaction.t) : Prop :=
  StronglySorted (fun a b => date_le (Transaction.date a) (Transaction.date b)) txs
  /\ Forall (fun t => amounts_ok t
                      /\ In (Transaction.payment_type t) PAYMENT_TYPES
                      /\ valid_date (Transaction.date t)) txs.




(** What [re.search] hands over from the match: the group and the rest, the
    latter changed by [f]. *)
Definition map_rest (f : string -> string) (r : option (string * string))
    : option (string * string) :=
  match r with
  | Some (g, rest) => Some (g, f rest)
  | None => None
  end.


(** The entry of [lines] made for a word. *)
Definition to_line_word (w : Word.t) : LineWord.t :=
  LineWord.mk (Word.x0 w) (Word.text w).

(** The words of the page whose [top] rounds to [y], in the order of the
    page. *)
Definition words_at (y : Z) (words : list Word.t) : list Word.t :=
  List.filter (fun w => py_round (Word.top w) =? y) words.

(** ** CSV output ([parser/csv_generator.py], [Transaction.to_csv_row]) *)

(** Two digits, as [%d] and [%m] print a day and a month. *)
Definition pad2 (n : Z) : string :=
  if n <? 10 then "0" +:+ pretty n else pretty n.

(** [date.strftime('%d/%m/%Y')], for years of four digits. *)
Definition strftime_dmY (d : Date.t) : string :=
  pad2 (Date.day d) +:+ "/" +:+ pad2 (Date.month d) +:+ "/" +:+ pretty (Date.year d).

(** The dictionary returned by [to_csv_row]. *)
Module CsvRow.
Record t := mk {
  Date : string;
  Bank : string;
  Description : string;
  Income : string;
  Expenses : string;
}.
End CsvRow.

(** [if amount and amount > 0: prefix + f'{amount:.2f}'], else the empty
    string. *)
Definition amount_cell (ar : arith) (prefix : string) (amount : option Q) : string :=
  match amount with
  | Some v => if truthy v && Qltb 0 v then prefix +:+ fmt2 ar (of_decimal ar v) else ""
  | None => ""
  end.

Definition to_csv_row (ar : arith) (t : Transaction.t) : CsvRow.t :=
  CsvRow.mk (strftime_dmY (Transaction.date t)) "hsbc"
    (Text.strip (Transaction.description t))
    (amount_cell ar "£" (Transaction.paid_in t))
    (amount_cell ar "-£" (Transaction.paid_out t)).

(** The writer of the [csv] module with its default dialect: fields joined by
    commas, a record closed by CR LF, and a field put between quotes, with its
    quotes doubled, when it holds a comma, a quote, a CR or a LF. *)
Definition QUOTE : ascii := "034"%char.
Definition CR : ascii := "013"%char.
Definition LF : ascii := "010"%char.

Definition special_char (c : ascii) : bool :=
  Ascii.eqb c "," || Ascii.eqb c QUOTE || Ascii.eqb c CR || Ascii.eqb c LF.

Definition needs_quotes (field : string) : bool :=
  negb (Text.all_chars (fun c => negb (special_char c)) field).

Fixpoint double_quotes (field : string) : string :=
  match field with
  | EmptyString => EmptyString
  | String c rest =>
      if Ascii.eqb c QUOTE then String QUOTE (String QUOTE (double_quotes rest))
      else String c (double_quotes rest)
  end.

Definition csv_field (field : string) : string :=
  if needs_quotes field
  then String QUOTE (double_quotes field +:+ String QUOTE EmptyString)
  else field.

Definition writerow (fields : list string) : string :=
  Text.join "," (map csv_field fields) +:+ String CR (String LF EmptyString).

Definition fieldnames : list string :=
  ["Date"; "Bank"; "Description"; "Income"; "Expenses"].

(** The values of a row in the order of [fieldnames]. *)
Definition row_values (r : CsvRow.t) : list string :=
  [CsvRow.Date r; CsvRow.Bank r; CsvRow.Description r; CsvRow.Income r;
   CsvRow.Expenses r].

Fixpoint concat_strings (l : list string) : string :=
  match l with
  | [] => EmptyString
  | s :: l' => s +:+ concat_strings l'
  end.

(** The text returned by [generate_csv]; writing it to [output_path] is an
    effect on the file system and does not change the text. *)
Definition generate_csv (ar : arith) (transactions : list Transaction.t)
    (include_header : bool) : string :=
  (if include_header then writerow fieldnames else EmptyString)
  +:+ concat_strings (map (fun tx => writerow (row_values (to_csv_row ar tx)))
                        transactions).

(** The list [combined] of [generate_combined_csv]: all lists in turn, then
    sorted by date. *)
Definition combined (all_transactions : list (list Transaction.t))
    : list Transaction.t :=
  sort_by Date.ltb Transaction.date (concat all_transactions).

Definition generate_combined_csv (ar : arith)
    (all_transactions : list (list Transaction.t)) : string :=
  generate_csv ar (combined all_transactions) true.

(** ** File names in the web layer ([app.py]) *)

(** [c in s]. *)
Definition has_char (c : ascii) (s : string) : bool :=
  negb (Text.all_chars (fun d => negb (Ascii.eqb d c)) s).

(** [s.rsplit(c, 1)] when [c] occurs in [s]: the text before the last [c]
    and the text after it; [None] when [c] does not occur (the list then has
    one element only). *)
Fixpoint rsplit1 (c : ascii) (s : string) : option (string * string) :=
  match s with
  | EmptyString => None
  | String d s' =>
      match rsplit1 c s' with
      | Some (a, b) => Some (String d a, b)
      | None => if Ascii.eqb d c then Some (EmptyString, s') else None
      end
  end.

(** [s.split(c, 1)] when [c] occurs in [s]: the text before the first [c] and
    the text after it. *)
Fixpoint split1 (c : ascii) (s : string) : option (string * string) :=
  match s with
  | EmptyString => None
  | String d s' =>
      if Ascii.eqb d c then Some (EmptyString, s')
      else match split1 c s' with
           | Some (a, b) => Some (String d a, b)
           | None => None
           end
  end.

(** ['.' in filename and filename.rsplit('.', 1)[1].lower() == 'pdf']. *)
Definition allowed_file (filename : string) : bool :=
  has_char "." filename
  && match rsplit1 "." filename with
     | Some (_, ext) => String.eqb (Text.lower ext) "pdf"
     | None => false
     end.

(** [f"{batch_id}_{csv_filename}"], the name under which a CSV is stored. *)
Definition stored_name (batch_id csv_filename : string) : string :=
  batch_id +:+ "_" +:+ csv_filename.

(** [filename.split('_', 1)[1] if '_' in filename else filename], the name
    under which a stored CSV is sent. *)
Definition download_name (filename : string) : string :=
  if has_char "_" filename then
    match split1 "_" filename with
    | Some (_, rest) => rest
    | None => filename
    end
  else filename.

(** * Properties *)

(** ** Evaluation of the embedding on samples *)

Example summary_example :
  extract_summary "Opening Balance £1,234.56 Closing Balance 10.00 Payments In 5.00"
  = Some (StatementSummary.mk (123456 # 100) (1000 # 100) (500 # 100) 0).
Proof. vm_compute. reflexivity. Qed.

Example date_example : parse_date_parts "5" "Jan" "24" = Some (Date.mk 2024 1 5).
Proof. reflexivity. Qed.

Example date_invalid : parse_date_parts "31" "Feb" "24" = None.
Proof. reflexivity. Qed.

Example scenario_result :
  extract_transactions_from_words [scenario_page]
  = ([Transaction.mk (Date.mk 2024 1 5) "DD" "Direct Debit ABC"
        (Some (1250 # 100)) None None []], []).
Proof. vm_compute. reflexivity. Qed.

Example format_2f_example : format_2f (float64 (1250 # 100)) = "12.50".
Proof. vm_compute. reflexivity. Qed.

(** ** The assembler never touches [errors] *)

Lemma errors_save_transaction s : errors (save_transaction s) = errors s.
Proof. reflexivity. Qed.

Lemma errors_apply_line l s : errors (apply_line l s) = errors s.
Proof.
  unfold apply_line, on_description, on_payment_type, on_date.
  destruct (Line.description_words l) as [|? ?];
    destruct (truthy_str (Line.payment_type l));
    destruct (Line.date_parts l) as [|? [|? [|? [|? ?]]]]; cbn;
    repeat match goal with |- context [if ?b then _ else _] => destruct b; cbn end;
    reflexivity.
Qed.

Lemma errors_process_line s ws : errors (process_line s ws) = errors s.
Proof.
  unfold process_line.
  repeat match goal with |- context [if ?b then _ else _] => destruct b end;
    try reflexivity.
  apply errors_apply_line.
Qed.

(** An invariant of the state that every line preserves holds after a page,
    and after all pages. *)
Lemma process_page_invariant (P : state -> Prop) :
  (forall s ws, P s -> P (process_line s ws)) ->
  forall words s, P s -> P (process_page s words).
Proof.
  intros Hstep words. unfold process_page.
  induction (page_lines words) as [|ws lines IH]; intros s Hs; cbn; auto.
Qed.

Lemma run_pages_invariant (P : state -> Prop) :
  (forall s ws, P s -> P (process_line s ws)) ->
  P initial_state ->
  forall pages_words, P (run_pages pages_words).
Proof.
  intros Hstep Hinit pages_words. unfold run_pages.
  generalize initial_state Hinit.
  induction pages_words as [|words pages IH]; intros s Hs; cbn; auto.
  apply IH. now apply process_page_invariant.
Qed.

Lemma errors_run_pages pages_words : errors (run_pages pages_words) = [].
Proof.
  apply (run_pages_invariant (fun s => errors s = [])).
  - intros s ws Hs. now rewrite errors_process_line.
  - reflexivity.
Qed.

(** C10. Whatever the pages hold, the list of parsing errors returned by
    [extract_transactions_from_words] is empty. *)
Theorem extract_errors_empty (pages_words : list (list Word.t)) :
  (extract_transactions_from_words pages_words).2 = [].
Proof.
  unfold extract_transactions_from_words. cbn [snd].
  rewrite errors_save_transaction. apply errors_run_pages.
Qed.

(** ** Amounts are never negative *)

Lemma all_chars_span p s : Text.all_chars p (Text.span p s).1 = true.
Proof.
  induction s as [|c s IH]; cbn; [reflexivity|].
  destruct (p c) eqn:Hc; [|reflexivity].
  destruct (Text.span p s) as [a b]. cbn in *. now rewrite Hc.
Qed.

Lemma digit_value_nonneg c : Text.is_digit c = true -> 0 <= digit_value c.
Proof.
  unfold Text.is_digit, digit_value. intros H.
  apply andb_true_iff in H as [H _]. apply N.leb_le in H. lia.
Qed.

Lemma digits_value_nonneg s :
  Text.all_chars Text.is_digit s = true ->
  forall acc, 0 <= acc -> 0 <= digits_value acc s.
Proof.
  induction s as [|c s IH]; cbn; intros H acc Hacc; [assumption|].
  apply andb_true_iff in H as [Hc Hs].
  apply IH; [assumption|]. pose proof (digit_value_nonneg c Hc). lia.
Qed.

Lemma float_of_decimal_nonneg clean v :
  float_of_decimal clean = Some v -> (0 <= v)%Q.
Proof.
  unfold float_of_decimal.
  pose proof (all_chars_span Text.is_digit clean) as Hint.
  destruct (Text.span Text.is_digit clean) as [int_part rest]. cbn in Hint.
  assert (Hfrac : forall frac, Text.all_chars Text.is_digit frac = true ->
            (if (String.length int_part + String.length frac =? 0)%nat then None
             else Some (Qmake (digits_value 0 int_part
                                 * 10 ^ Z.of_nat (String.length frac)
                               + digits_value 0 frac)
                              (Z.to_pos (10 ^ Z.of_nat (String.length frac)))))
            = Some v -> (0 <= v)%Q).
  { intros frac Hf H.
    destruct (String.length int_part + String.length frac =? 0)%nat; [discriminate|].
    injection H as <-. unfold Qle. cbn [Qnum Qden].
    pose proof (digits_value_nonneg int_part Hint 0 ltac:(lia)).
    pose proof (digits_value_nonneg frac Hf 0 ltac:(lia)).
    assert (0 <= 10 ^ Z.of_nat (String.length frac)) by (apply Z.pow_nonneg; lia).
    nia. }
  destruct rest as [|c frac].
  - apply (Hfrac EmptyString). reflexivity.
  - destruct (Ascii.eqb c "." && Text.all_chars Text.is_digit frac) eqn:Hc;
      [|discriminate].
    apply andb_true_iff in Hc as [_ Hc]. now apply Hfrac.
Qed.

Lemma parse_amount_nonneg amount_str : (0 <= parse_amount amount_str)%Q.
Proof.
  unfold parse_amount. destruct amount_str as [|c s]; [apply Qle_refl|].
  destruct (float_of_decimal _) as [v|] eqn:Hv; [|apply Qle_refl].
  now apply float_of_decimal_nonneg in Hv.
Qed.

(** A non-negative amount that counts as true is positive. *)
Lemma truthy_nonneg_pos a : truthy a = true -> (0 <= a)%Q -> (0 < a)%Q.
Proof.
  unfold truthy. intros Ht Ha.
  apply negb_true_iff in Ht.
  destruct (Qlt_le_dec 0 a) as [Hlt|Hle]; [assumption|].
  assert (Heq : (a == 0)%Q) by (apply Qle_antisym; assumption).
  apply Qeq_bool_iff in Heq. congruence.
Qed.

Lemma truthy_opt_positive a : truthy_opt a = true -> nonneg_opt a -> positive_opt a.
Proof. destruct a as [v|]; cbn; [apply truthy_nonneg_pos | discriminate]. Qed.

Lemma classify_word_nonneg l w :
  line_amounts_nonneg l -> line_amounts_nonneg (classify_word l w).
Proof.
  intros [Ho Hi]. unfold classify_word.
  pose proof (parse_amount_nonneg (LineWord.text w)).
  repeat match goal with |- context [if ?b then _ else _] => destruct b end;
    split; cbn; assumption.
Qed.

Lemma classify_line_nonneg ws : line_amounts_nonneg (classify_line ws).
Proof.
  unfold classify_line.
  assert (H : line_amounts_nonneg Line.empty) by (split; exact I).
  revert H. generalize Line.empty.
  induction ws as [|w ws IH]; intros l Hl; cbn; [assumption|].
  apply IH. now apply classify_word_nonneg.
Qed.

Lemma save_transaction_amounts_ok s :
  state_amounts_ok s -> state_amounts_ok (save_transaction s).
Proof.
  intros (Ho & Hi & Htx). unfold state_amounts_ok, save_transaction.
  cbn [current_paid_out current_paid_in transactions nonneg_opt].
  split; [exact I|]. split; [exact I|].
  destruct (current_date s) as [d|]; [|assumption].
  destruct (current_payment_type s) as [p|]; [|assumption].
  destruct (nonempty p && has_amount s) eqn:Hc; [|assumption].
  apply andb_true_iff in Hc as [_ Hc]. unfold has_amount in Hc.
  apply Forall_app. split; [assumption|].
  constructor; [|constructor]. unfold amounts_ok, candidate. cbn.
  split; [assumption|]. split; [assumption|].
  apply orb_true_iff in Hc as [Hc|Hc]; [left|right];
    now apply truthy_opt_positive.
Qed.

Lemma apply_line_amounts_ok l s :
  line_amounts_nonneg l -> state_amounts_ok s -> state_amounts_ok (apply_line l s).
Proof.
  intros [Hlo Hli] Hs. unfold apply_line.
  assert (H1 : state_amounts_ok (on_date l s)).
  { unfold on_date. destruct (Line.date_parts l) as [|? [|? [|? [|? ?]]]]; try assumption.
    apply save_transaction_amounts_ok in Hs. exact Hs. }
  assert (H2 : state_amounts_ok (on_payment_type l (on_date l s))).
  { revert H1. generalize (on_date l s). intros s1 H1. unfold on_payment_type.
    destruct (truthy_str (Line.payment_type l)); [|assumption].
    destruct (truthy_str (current_payment_type s1) && has_amount s1);
      [apply save_transaction_amounts_ok in H1|]; exact H1. }
  assert (H3 : state_amounts_ok (on_description l (on_payment_type l (on_date l s)))).
  { revert H2. generalize (on_payment_type l (on_date l s)). intros s2 H2.
    unfold on_description. destruct (Line.description_words l); [assumption|].
    destruct (truthy_str (current_payment_type s2)); exact H2. }
  revert H3. generalize (on_description l (on_payment_type l (on_date l s))).
  intros s3 (Ho & Hi & Htx). unfold state_amounts_ok, set_amounts. cbn.
  destruct (Line.paid_out l), (Line.paid_in l); auto.
Qed.

Lemma process_line_amounts_ok s ws :
  state_amounts_ok s -> state_amounts_ok (process_line s ws).
Proof.
  intros Hs. unfold process_line.
  repeat match goal with |- context [if ?b then _ else _] => destruct b end;
    try assumption.
  - apply save_transaction_amounts_ok in Hs. exact Hs.
  - apply apply_line_amounts_ok; [apply classify_line_nonneg | assumption].
Qed.

(** ** Facts about the stable sort *)

Section SortFacts.
Context {A K : Type} (ltb : K -> K -> bool) (key : A -> K).

Lemma insert_by_perm a l : Permutation (insert_by ltb key a l) (a :: l).
Proof.
  induction l as [|b l IH]; cbn; [reflexivity|].
  destruct (ltb (key b) (key a)); [|reflexivity].
  rewrite IH. apply perm_swap.
Qed.

Lemma sort_by_perm l : Permutation (sort_by ltb key l) l.
Proof.
  induction l as [|a l IH]; cbn; [reflexivity|].
  rewrite insert_by_perm. now constructor.
Qed.

Lemma sort_by_Forall (P : A -> Prop) l : Forall P l -> Forall P (sort_by ltb key l).
Proof.
  intros H. eapply Permutation_Forall; [|exact H].
  symmetry. apply sort_by_perm.
Qed.

Section Order.
Hypothesis ltb_asym : forall x y, ltb x y = true -> ltb y x = false.
Hypothesis ltb_trans_neg :
  forall x y z, ltb y x = false -> ltb z y = false -> ltb z x = false.

Lemma insert_by_sorted a l :
  StronglySorted (key_le ltb key) l -> StronglySorted (key_le ltb key) (insert_by ltb key a l).
Proof.
  induction 1 as [|b l Hs IH Hb]; cbn.
  - constructor; constructor.
  - destruct (ltb (key b) (key a)) eqn:Hab.
    + constructor; [assumption|].
      eapply Permutation_Forall; [symmetry; apply insert_by_perm|].
      constructor; [|assumption]. unfold key_le. now apply ltb_asym.
    + constructor; [now constructor|].
      constructor; [exact Hab|].
      eapply List.Forall_impl; [|exact Hb].
      intros c Hc. unfold key_le in *. eapply ltb_trans_neg; eassumption.
Qed.

Lemma sort_by_sorted l : StronglySorted (key_le ltb key) (sort_by ltb key l).
Proof.
  induction l as [|a l IH]; cbn; [constructor|]. now apply insert_by_sorted.
Qed.
End Order.

(** Stability: the elements whose key falls in one class of equal keys keep
    their order. *)
Section Stable.
Variable same : K -> bool.
Hypothesis same_not_below :
  forall x y, same x = true -> same y = true -> ltb y x = false.

Lemma filter_insert_by a l :
  List.filter (fun b => same (key b)) (insert_by ltb key a l)
  = List.filter (fun b => same (key b)) (a :: l).
Proof.
  induction l as [|b l IH]; [reflexivity|].
  cbn [insert_by]. destruct (ltb (key b) (key a)) eqn:Hab; [|reflexivity].
  cbn [List.filter] in *. rewrite IH.
  destruct (same (key a)) eqn:Ha, (same (key b)) eqn:Hb; try reflexivity.
  rewrite (same_not_below (key a) (key b) Ha Hb) in Hab. discriminate.
Qed.

Lemma filter_sort_by l :
  List.filter (fun b => same (key b)) (sort_by ltb key l)
  = List.filter (fun b => same (key b)) l.
Proof.
  induction l as [|a l IH]; [reflexivity|].
  cbn [sort_by]. rewrite filter_insert_by. cbn [List.filter]. now rewrite IH.
Qed.
End Stable.
End SortFacts.

Lemma StronglySorted_weaken {A} (R S : A -> A -> Prop) l :
  (forall a b, R a b -> S a b) -> StronglySorted R l -> StronglySorted S l.
Proof.
  intros HRS. induction 1 as [|a l Hs IH Ha]; constructor; [assumption|].
  eapply List.Forall_impl; [|exact Ha]. intros b. apply HRS.
Qed.

(** The order of dates. *)
Lemma date_ltb_spec a b :
  Date.ltb a b = true <->
  Date.year a < Date.year b
  \/ (Date.year a = Date.year b
      /\ (Date.month a < Date.month b
          \/ (Date.month a = Date.month b /\ Date.day a < Date.day b))).
Proof.
  unfold Date.ltb.
  rewrite !orb_true_iff, !andb_true_iff, !orb_true_iff, !andb_true_iff,
    !Z.ltb_lt, !Z.eqb_eq.
  reflexivity.
Qed.

Lemma date_ltb_false a b :
  Date.ltb a b = false <-> ~ (Date.ltb a b = true).
Proof. destruct (Date.ltb a b); split; congruence. Qed.

Lemma date_ltb_asym a b : Date.ltb a b = true -> Date.ltb b a = false.
Proof. rewrite date_ltb_false, !date_ltb_spec. lia. Qed.

Lemma date_ltb_trans_neg a b c :
  Date.ltb b a = false -> Date.ltb c b = false -> Date.ltb c a = false.
Proof. rewrite !date_ltb_false, !date_ltb_spec. lia. Qed.

Lemma date_eqb_not_below d a b :
  Date.eqb a d = true -> Date.eqb b d = true -> Date.ltb b a = false.
Proof.
  unfold Date.eqb. rewrite !andb_true_iff, !Z.eqb_eq, date_ltb_false, date_ltb_spec.
  lia.
Qed.

Lemma date_le_iff a b : date_le a b <-> Date.ltb b a = false.
Proof. unfold date_le. rewrite date_ltb_false, date_ltb_spec. lia. Qed.

(** C2. The list returned by [extract_transactions_from_words] is in
    non-decreasing order of date, and for every date the transactions of that
    date stand in the order in which they were finalized. *)
Theorem extract_sorted_stable (pages_words : list (list Word.t)) :
  StronglySorted (fun a b => date_le (Transaction.date a) (Transaction.date b))
    (extract_transactions_from_words pages_words).1
  /\ forall d,
       List.filter (fun t => Date.eqb (Transaction.date t) d)
         (extract_transactions_from_words pages_words).1
       = List.filter (fun t => Date.eqb (Transaction.date t) d)
           (finalized pages_words).
Proof.
  unfold extract_transactions_from_words, finalized. cbn [fst]. split.
  - eapply StronglySorted_weaken;
      [|apply (sort_by_sorted Date.ltb Transaction.date
                 date_ltb_asym date_ltb_trans_neg)].
    intros a b H. apply date_le_iff. exact H.
  - intros d.
    apply (filter_sort_by Date.ltb Transaction.date (fun k => Date.eqb k d)).
    intros x y. apply date_eqb_not_below.
Qed.

(** C6. In every transaction returned by [extract_transactions_from_words],
    paid-out and paid-in are each absent or non-negative, and at least one of
    them is strictly positive. *)
Theorem extract_amounts_ok (pages_words : list (list Word.t)) :
  Forall amounts_ok (extract_transactions_from_words pages_words).1.
Proof.
  unfold extract_transactions_from_words. cbn [fst].
  apply sort_by_Forall.
  assert (H : state_amounts_ok (run_pages pages_words)).
  { apply (run_pages_invariant state_amounts_ok).
    - intros s ws. apply process_line_amounts_ok.
    - repeat split; constructor. }
  apply save_transaction_amounts_ok in H. apply H.
Qed.

(** ** The finalize rule *)

Lemma truthy_opt_iff a : truthy_opt a = true <-> nonzero_amount a.
Proof.
  unfold nonzero_amount. destruct a as [v|]; cbn.
  - unfold truthy. rewrite negb_true_iff. split.
    + intros H. exists v. split; [reflexivity|]. intros Heq.
      apply Qeq_bool_iff in Heq. congruence.
    + intros (w & [= <-] & Hw). destruct (Qeq_bool v 0) eqn:E; [|reflexivity].
      apply Qeq_bool_iff in E. contradiction.
  - split; [discriminate|]. intros (w & H & _). discriminate.
Qed.

Lemma truthy_str_iff o : truthy_str o = true <-> exists p, o = Some p /\ p <> "".
Proof.
  destruct o as [[|c p]|]; cbn; split; try discriminate.
  - intros (q & [= <-] & Hq). contradiction.
  - intros _. eexists. split; [reflexivity|discriminate].
  - reflexivity.
  - intros (q & H & _). discriminate.
Qed.

Lemma has_amount_iff s :
  has_amount s = true <->
  nonzero_amount (current_paid_out s) \/ nonzero_amount (current_paid_in s).
Proof. unfold has_amount. now rewrite orb_true_iff, !truthy_opt_iff. Qed.

Lemma app_one_neq {A} (l : list A) (a : A) : l ++ [a] <> l.
Proof.
  intros H. apply (f_equal (@length A)) in H.
  rewrite length_app in H. cbn in H. lia.
Qed.

Lemma save_transaction_cases s :
  (complete s
   /\ exists d p, current_date s = Some d /\ current_payment_type s = Some p
        /\ transactions (save_transaction s) = transactions s ++ [candidate s d p])
  \/ (~ complete s /\ transactions (save_transaction s) = transactions s).
Proof.
  unfold save_transaction, complete, holds_date, holds_payment_type.
  cbn [transactions].
  destruct (current_date s) as [d|] eqn:Hd.
  2:{ right. split; [|reflexivity]. intros (H & _). congruence. }
  destruct (current_payment_type s) as [p|] eqn:Hp.
  2:{ right. split; [|reflexivity]. intros (_ & (q & H & _) & _). discriminate. }
  change (nonempty p) with (truthy_str (Some p)).
  destruct (truthy_str (Some p)) eqn:Ht; cbn [andb].
  2:{ right. split; [|reflexivity]. intros (_ & Hq & _).
      apply truthy_str_iff in Hq. congruence. }
  destruct (has_amount s) eqn:Ha.
  - left. split.
    + split; [discriminate|]. split; [now apply truthy_str_iff|].
      now apply has_amount_iff.
    + exists d, p. repeat split.
  - right. split; [|reflexivity]. intros (_ & _ & H).
    apply has_amount_iff in H. congruence.
Qed.

(** C1 (as amended). At a finalization point a transaction is emitted if and
    only if the accumulator holds a date, a payment type and at least one
    non-zero amount among paid-out and paid-in.  The emitted transaction is
    the candidate, whose description is the accumulated words joined by
    spaces; otherwise the list of transactions is unchanged.  In both cases
    nothing is added to the errors. *)
Theorem save_transaction_emits (s : state) :
  ((exists t, transactions (save_transaction s) = transactions s ++ [t])
   <-> complete s)
  /\ (forall t, transactions (save_transaction s) = transactions s ++ [t] ->
        Transaction.description t = Text.join " " (current_description_parts s)
        /\ current_date s = Some (Transaction.date t)
        /\ current_payment_type s = Some (Transaction.payment_type t)
        /\ Transaction.paid_out t = current_paid_out s
        /\ Transaction.paid_in t = current_paid_in s)
  /\ (~ complete s -> transactions (save_transaction s) = transactions s)
  /\ errors (save_transaction s) = errors s.
Proof.
  destruct (save_transaction_cases s) as [(Hc & d & p & Hd & Hp & Htx)|(Hc & Htx)].
  - split; [split; [intros _; exact Hc | intros _; eexists; exact Htx]|].
    split; [|split; [intros H; contradiction | reflexivity]].
    intros t Ht. rewrite Htx in Ht. apply app_inj_tail in Ht as [_ <-].
    cbn. repeat split; assumption.
  - split; [split; [|intros H; contradiction]|].
    + intros (t & Ht). rewrite Htx in Ht. symmetry in Ht.
      now apply app_one_neq in Ht.
    + split; [|split; [intros _; exact Htx | reflexivity]].
      intros t Ht. rewrite Htx in Ht. symmetry in Ht. now apply app_one_neq in Ht.
Qed.

(** Between lines the accumulator never holds an empty payment type, so
    there "holds a payment type" and "holds a non-empty one" agree. *)
Lemma payment_type_on_date l s :
  current_payment_type (on_date l s) = current_payment_type s.
Proof.
  unfold on_date. destruct (Line.date_parts l) as [|? [|? [|? [|? ?]]]]; reflexivity.
Qed.

Lemma payment_type_on_description l s :
  current_payment_type (on_description l s) = current_payment_type s.
Proof.
  unfold on_description. destruct (Line.description_words l); [reflexivity|].
  destruct (truthy_str (current_payment_type s)); reflexivity.
Qed.

Lemma payment_type_on_payment_type l s :
  current_payment_type s <> Some "" ->
  current_payment_type (on_payment_type l s) <> Some "".
Proof.
  intros Hs. unfold on_payment_type.
  destruct (truthy_str (Line.payment_type l)) eqn:Hp; [|assumption].
  cbn [set_current_payment_type current_payment_type].
  intros E. rewrite E in Hp. discriminate Hp.
Qed.

Lemma payment_type_never_empty pages_words :
  current_payment_type (run_pages pages_words) <> Some "".
Proof.
  apply (run_pages_invariant (fun s => current_payment_type s <> Some "")).
  - intros s ws Hs. unfold process_line.
    repeat match goal with |- context [if ?b then _ else _] => destruct b end;
      try assumption; [discriminate|].
    unfold apply_line. cbn [set_amounts current_payment_type].
    rewrite payment_type_on_description.
    apply payment_type_on_payment_type. now rewrite payment_type_on_date.
  - discriminate.
Qed.

(** C1 (as stated) fails: at the last finalization point of this page the
    accumulator holds a date, a payment type and a paid-out amount, and no
    transaction is emitted. *)
Lemma zero_amount_not_emitted :
  let s := run_pages [zero_amount_page] in
  current_date s = Some (Date.mk 2024 1 5)
  /\ current_payment_type s = Some "DD"
  /\ current_paid_out s = Some (0 # 100)%Q
  /\ ~ (exists t, transactions (save_transaction s) = transactions s ++ [t])
  /\ extract_transactions_from_words [zero_amount_page] = ([], []).
Proof.
  cbv zeta. split; [vm_compute; reflexivity|]. split; [vm_compute; reflexivity|].
  split; [vm_compute; reflexivity|]. split; [|vm_compute; reflexivity].
  intros (t & Ht).
  assert (H : transactions (save_transaction (run_pages [zero_amount_page])) = [])
    by (vm_compute; reflexivity).
  assert (H' : transactions (run_pages [zero_amount_page]) = [])
    by (vm_compute; reflexivity).
  rewrite H, H' in Ht. discriminate.
Qed.

(** ** Amount-shaped words outside the amount bands *)

Lemma Qltb_false a b : Qltb a b = false <-> (b <= a)%Q.
Proof. unfold Qltb. rewrite negb_false_iff. apply Qle_bool_iff. Qed.

Lemma Qltb_true a b : Qltb a b = true <-> (a < b)%Q.
Proof.
  unfold Qltb. rewrite negb_true_iff. split.
  - intros H. apply Qnot_le_lt. intros Hle. apply Qle_bool_iff in Hle. congruence.
  - intros H. destruct (Qle_bool b a) eqn:E; [|reflexivity].
    apply Qle_bool_iff in E. apply Qlt_not_le in H. contradiction.
Qed.

Lemma Qle_bool_false a b : Qle_bool a b = false <-> (b < a)%Q.
Proof.
  rewrite <- Qltb_true. unfold Qltb. now rewrite negb_true_iff.
Qed.

Lemma in_band_true lo x hi : in_band lo x hi = true <-> (lo <= x)%Q /\ (x < hi)%Q.
Proof. unfold in_band. now rewrite andb_true_iff, Qle_bool_iff, Qltb_true. Qed.

Lemma in_band_below lo x hi : (x < lo)%Q -> in_band lo x hi = false.
Proof.
  intros H. unfold in_band. apply Qle_bool_false in H. now rewrite H.
Qed.

Lemma in_band_above lo x hi : (hi <= x)%Q -> in_band lo x hi = false.
Proof.
  intros H. unfold in_band. apply Qltb_false in H. rewrite H. apply andb_false_r.
Qed.

(** A text of amount shape starts with a digit or a comma. *)
Lemma money_first_char s r :
  Re.money s = Some r ->
  exists c s', s = String c s' /\ Re.money_char c = true.
Proof.
  unfold Re.money. destruct s as [|c s']; cbn; [discriminate|].
  destruct (Re.money_char c) eqn:Hc; [|discriminate].
  intros _. now exists c, s'.
Qed.

Lemma amount_first_char text :
  AMOUNT_PATTERN text = true ->
  exists c s', text = String c s' /\ Re.money_char c = true.
Proof.
  unfold AMOUNT_PATTERN. destruct (Re.money text) as [r|] eqn:Hm; [|discriminate].
  intros _. eapply money_first_char. exact Hm.
Qed.

Ltac money_char_cases c H :=
  destruct c as [[] [] [] [] [] [] [] []]; vm_compute in H; try discriminate H.

(** Such a text is no payment-type code. *)
Lemma amount_not_payment_type text :
  AMOUNT_PATTERN text = true ->
  mem_string (Text.upper text) (map Text.upper PAYMENT_TYPES) = false
  /\ String.eqb text ")))" = false.
Proof.
  intros H. apply amount_first_char in H as (c & s' & -> & Hc).
  money_char_cases c Hc; split; reflexivity.
Qed.

(** The description words of a line only grow. *)
Lemma classify_word_keeps_description t l w :
  In t (Line.description_words l) ->
  In t (Line.description_words (classify_word l w)).
Proof.
  intros H. unfold classify_word.
  repeat match goal with |- context [if ?b then _ else _] => destruct b end;
    cbn; try assumption; apply in_or_app; now left.
Qed.

Lemma classify_fold_keeps_description t ws :
  forall l, In t (Line.description_words l) ->
            In t (Line.description_words (fold_left classify_word ws l)).
Proof.
  induction ws as [|w ws IH]; intros l H; cbn; [assumption|].
  apply IH. now apply classify_word_keeps_description.
Qed.

Lemma classify_word_amount_description l w :
  AMOUNT_PATTERN (LineWord.text w) = true ->
  (COL_PAYMENT_TYPE_MIN <= LineWord.x w)%Q -> (LineWord.x w < COL_PAID_OUT_MIN)%Q ->
  classify_word l w = Line.add_description (LineWord.text w) l.
Proof.
  intros Ha Hlo Hhi. unfold classify_word.
  unfold COL_PAYMENT_TYPE_MIN, COL_PAID_OUT_MIN in Hlo, Hhi.
  assert (H1 : Qltb (LineWord.x w) 100 = false) by now apply Qltb_false.
  rewrite H1.
  destruct (amount_not_payment_type _ Ha) as [Hp Hs]. rewrite Hp, Hs, Ha.
  rewrite (in_band_below COL_PAID_OUT_MIN) by exact Hhi.
  rewrite (in_band_below COL_PAID_IN_MIN)
    by (unfold COL_PAID_IN_MIN; lra).
  assert (H2 : Qle_bool COL_BALANCE_MIN (LineWord.x w) = false)
    by (apply Qle_bool_false; unfold COL_BALANCE_MIN; lra).
  rewrite H2.
  destruct (in_band COL_PAYMENT_TYPE_MIN (LineWord.x w) COL_PAYMENT_TYPE_MAX);
    reflexivity.
Qed.

(** C7 (as amended). On a surviving line, a word of amount shape whose
    position is at or right of the payment-type band and left of the
    paid-out band (so outside the three amount bands) is appended to the
    description words of the line, in the payment-type band as in the
    description band. *)
Theorem amount_outside_bands_is_description
    (line_words : list LineWord.t) (w : LineWord.t) :
  In w line_words ->
  AMOUNT_PATTERN (LineWord.text w) = true ->
  (COL_PAYMENT_TYPE_MIN <= LineWord.x w)%Q ->
  (LineWord.x w < COL_PAID_OUT_MIN)%Q ->
  (forall l, classify_word l w = Line.add_description (LineWord.text w) l)
  /\ In (LineWord.text w) (Line.description_words (classify_line line_words)).
Proof.
  intros Hin Ha Hlo Hhi.
  assert (Hstep : forall l,
             classify_word l w = Line.add_description (LineWord.text w) l)
    by (intros l; now apply classify_word_amount_description).
  split; [exact Hstep|].
  unfold classify_line. generalize Line.empty.
  induction line_words as [|w' ws IH]; intros l; [destruct Hin|].
  cbn [fold_left]. destruct Hin as [->|Hin].
  - apply classify_fold_keeps_description. rewrite Hstep. cbn.
    apply in_or_app. right. now left.
  - now apply IH.
Qed.

Lemma amount_outside_bands_is_description_witness :
  In "12.50" (Line.description_words
                (classify_line [LineWord.mk 110 "12.50"; LineWord.mk 200 "3.00"])).
Proof.
  apply (amount_outside_bands_is_description
           [LineWord.mk 110 "12.50"; LineWord.mk 200 "3.00"] (LineWord.mk 110 "12.50")).
  - left. reflexivity.
  - reflexivity.
  - vm_compute. discriminate.
  - vm_compute. reflexivity.
Defined.

(** A text of amount shape holds a full stop, so it is no run of digits;
    nor is it the name of a month. *)
Lemma span_app p s : s = (Text.span p s).1 +:+ (Text.span p s).2.
Proof.
  induction s as [|c s IH]; cbn; [reflexivity|].
  destruct (p c); [|reflexivity].
  destruct (Text.span p s) as [a b]. cbn in *.
  change (String c s = String c (a +:+ b)). now f_equal.
Qed.

Lemma all_chars_app p a b :
  Text.all_chars p (a +:+ b) = Text.all_chars p a && Text.all_chars p b.
Proof.
  induction a as [|c a IH]; [reflexivity|].
  change (String c a +:+ b) with (String c (a +:+ b)).
  cbn. rewrite IH. apply andb_assoc.
Qed.

Lemma amount_not_date_part text :
  AMOUNT_PATTERN text = true ->
  Text.isdigit text = false /\ mem_string text MONTHS = false.
Proof.
  intros H. split.
  - assert (Hall : Text.all_chars Text.is_digit text = false).
    { unfold AMOUNT_PATTERN, Re.money in H.
      rewrite (span_app Re.money_char text), all_chars_app.
      destruct (Text.span Re.money_char text) as [body rest]. cbn [fst snd].
      destruct body as [|b body]; [discriminate|].
      destruct rest as [|dot [|d1 [|d2 rest]]]; try discriminate.
      destruct (Ascii.eqb dot ".") eqn:Hdot; [|discriminate].
      apply Ascii.eqb_eq in Hdot as ->. cbn. apply andb_false_r. }
    unfold Text.isdigit. destruct text; [reflexivity | exact Hall].
  - apply amount_first_char in H as (c & s' & -> & Hc).
    money_char_cases c Hc; reflexivity.
Qed.

(** In the date band such a word is neither a date part nor anything else:
    the line is left as it was. *)
Lemma classify_word_amount_date_band l w :
  AMOUNT_PATTERN (LineWord.text w) = true ->
  (LineWord.x w < COL_DATE_MAX)%Q ->
  classify_word l w = l.
Proof.
  intros Ha Hx. unfold classify_word.
  apply Qltb_true in Hx. unfold COL_DATE_MAX in Hx. rewrite Hx.
  destruct (amount_not_date_part _ Ha) as [Hd Hm]. rewrite Hd, Hm. reflexivity.
Qed.

(** C7 (as stated) fails in the date band: the word is of amount shape and
    outside the three amount bands, and the line has no description word. *)
Lemma amount_in_date_band_dropped :
  AMOUNT_PATTERN "12.50" = true
  /\ in_amount_band 50 = false
  /\ Line.description_words (classify_line [LineWord.mk 50 "12.50"]) = [].
Proof. repeat split. Qed.

(** ** Adequacy of the decimal reading

    On every text that the source hands to [parse_amount], [float] succeeds:
    the fallback to zero is never taken, and the value is that of the
    numeral with its commas dropped. *)

Lemma append_cons c a b : String c a +:+ b = String c (a +:+ b).
Proof. reflexivity. Qed.

Lemma prefix_empty s : String.prefix "" s = true.
Proof. destruct s; reflexivity. Qed.

Lemma remove_comma_cons c s :
  Text.remove "," (String c s)
  = if Ascii.eqb c "," then Text.remove "," s else String c (Text.remove "," s).
Proof.
  unfold Text.remove. cbn [Text.remove_from]. unfold Text.starts_with.
  cbn [String.prefix]. destruct (ascii_dec "," c) as [<-|Hne].
  - rewrite prefix_empty. reflexivity.
  - destruct (Ascii.eqb c ",") eqn:E; [|reflexivity].
    apply Ascii.eqb_eq in E. congruence.
Qed.

Lemma remove_pound_cons c s :
  plain_char c = true ->
  Text.remove "£" (String c s) = String c (Text.remove "£" s).
Proof.
  intros H. unfold Text.remove. cbn [Text.remove_from]. unfold Text.starts_with.
  destruct c as [[] [] [] [] [] [] [] []]; vm_compute in H; try discriminate H;
    reflexivity.
Qed.

Lemma remove_pound_plain s :
  Text.all_chars plain_char s = true -> Text.remove "£" s = s.
Proof.
  induction s as [|c s IH]; [reflexivity|]. cbn [Text.all_chars]. intros H.
  apply andb_true_iff in H as [Hc Hs].
  rewrite remove_pound_cons by exact Hc. now rewrite IH.
Qed.

Lemma digit_is_plain c : Text.is_digit c = true -> plain_char c = true.
Proof. unfold plain_char. now intros ->. Qed.

Lemma digit_not_space c : Text.is_digit c = true -> Text.is_space c = false.
Proof.
  intros H. destruct c as [[] [] [] [] [] [] [] []]; vm_compute in H;
    try discriminate H; reflexivity.
Qed.

Lemma digit_not_comma c : Text.is_digit c = true -> Ascii.eqb c "," = false.
Proof.
  intros H. destruct c as [[] [] [] [] [] [] [] []]; vm_compute in H;
    try discriminate H; reflexivity.
Qed.

(** The shape behind [Re.money]. *)
Lemma money_shape s g rest :
  Re.money s = Some (g, rest) ->
  exists body d1 d2,
    s = body +:+ String "." (String d1 (String d2 rest))
    /\ g = body +:+ String "." (String d1 (String d2 ""))
    /\ body <> ""
    /\ Text.all_chars Re.money_char body = true
    /\ Text.is_digit d1 = true /\ Text.is_digit d2 = true.
Proof.
  unfold Re.money. intros H.
  pose proof (span_app Re.money_char s) as Hs.
  pose proof (all_chars_span Re.money_char s) as Hall.
  destruct (Text.span Re.money_char s) as [body r]. cbn [fst snd] in *.
  destruct body as [|b body]; [discriminate|].
  destruct r as [|dot [|d1 [|d2 r]]]; try discriminate.
  destruct (Ascii.eqb dot ".") eqn:Hdot; [|discriminate].
  destruct (Text.is_digit d1) eqn:H1; [|discriminate].
  destruct (Text.is_digit d2) eqn:H2; [|discriminate].
  cbn [andb] in H. injection H as <- <-.
  apply Ascii.eqb_eq in Hdot as ->.
  exists (String b body), d1, d2. repeat split; try assumption. discriminate.
Qed.

(** Dropping the commas of the integer part leaves digits. *)
Lemma remove_comma_body body tail :
  Text.all_chars Re.money_char body = true ->
  exists D, Text.all_chars Text.is_digit D = true
            /\ Text.remove "," (body +:+ tail) = D +:+ Text.remove "," tail.
Proof.
  induction body as [|c body IH]; intros H.
  - exists EmptyString. split; reflexivity.
  - cbn [Text.all_chars] in H. apply andb_true_iff in H as [Hc Hb].
    destruct (IH Hb) as (D & HD & Heq).
    rewrite append_cons, remove_comma_cons, Heq.
    destruct (Ascii.eqb c ",") eqn:E.
    + exists D. split; [exact HD | reflexivity].
    + exists (String c D). split; [|reflexivity].
      cbn [Text.all_chars]. rewrite HD.
      unfold Re.money_char in Hc. rewrite E, orb_false_r in Hc. now rewrite Hc.
Qed.

Lemma span_digits D c s :
  Text.all_chars Text.is_digit D = true -> Text.is_digit c = false ->
  Text.span Text.is_digit (D +:+ String c s) = (D, String c s).
Proof.
  intros HD Hc. induction D as [|d D IH].
  - change ("" +:+ String c s) with (String c s). cbn [Text.span]. now rewrite Hc.
  - cbn [Text.all_chars] in HD. apply andb_true_iff in HD as [Hd HD].
    rewrite append_cons. cbn [Text.span]. rewrite Hd, (IH HD). reflexivity.
Qed.

Lemma lstrip_cons c s : Text.is_space c = false -> Text.lstrip (String c s) = String c s.
Proof. intros H. cbn [Text.lstrip]. now rewrite H. Qed.

Lemma rstrip_cons c s :
  Text.rstrip s <> "" -> Text.rstrip (String c s) = String c (Text.rstrip s).
Proof. intros H. cbn [Text.rstrip]. destruct (Text.rstrip s); [contradiction|reflexivity]. Qed.

Lemma rstrip_app a b :
  Text.rstrip b <> "" -> Text.rstrip (a +:+ b) = a +:+ Text.rstrip b.
Proof.
  intros Hb. induction a as [|c a IH]; [reflexivity|].
  rewrite append_cons, rstrip_cons; rewrite IH; [reflexivity|].
  destruct a; [exact Hb | discriminate].
Qed.

Lemma rstrip_numeral_end d1 d2 nl :
  Text.is_digit d1 = true -> Text.is_digit d2 = true ->
  Text.rstrip (numeral_end d1 d2 nl) = numeral_end d1 d2 false.
Proof.
  intros H1 H2. apply digit_not_space in H2.
  unfold numeral_end. destruct nl; cbn; rewrite H2; reflexivity.
Qed.

Lemma remove_comma_numeral_end d1 d2 nl :
  Text.is_digit d1 = true -> Text.is_digit d2 = true ->
  Text.remove "," (numeral_end d1 d2 nl) = numeral_end d1 d2 nl.
Proof.
  intros H1 H2. apply digit_not_comma in H1, H2. unfold numeral_end.
  rewrite !remove_comma_cons, H1, H2. destruct nl; reflexivity.
Qed.

Lemma plain_numeral D d1 d2 nl :
  Text.all_chars Text.is_digit D = true ->
  Text.is_digit d1 = true -> Text.is_digit d2 = true ->
  Text.all_chars plain_char (D +:+ numeral_end d1 d2 nl) = true.
Proof.
  intros HD H1 H2. rewrite all_chars_app. apply andb_true_iff. split.
  - clear -HD. induction D as [|d D IH]; [reflexivity|].
    cbn [Text.all_chars] in *. apply andb_true_iff in HD as [Hd HD].
    now rewrite (digit_is_plain d Hd), IH.
  - unfold numeral_end. cbn [Text.all_chars].
    rewrite (digit_is_plain d1 H1), (digit_is_plain d2 H2). destruct nl; reflexivity.
Qed.

Lemma parse_amount_numeral body d1 d2 nl :
  body <> "" ->
  Text.all_chars Re.money_char body = true ->
  Text.is_digit d1 = true -> Text.is_digit d2 = true ->
  exists D, Text.all_chars Text.is_digit D = true
            /\ parse_amount (body +:+ numeral_end d1 d2 nl) = numeral_value D d1 d2.
Proof.
  intros Hne Hbody H1 H2.
  destruct (remove_comma_body body (numeral_end d1 d2 nl) Hbody) as (D & HD & Hrm).
  exists D. split; [exact HD|].
  unfold parse_amount.
  destruct body as [|b body]; [contradiction|].
  rewrite append_cons. cbv beta iota. rewrite <- append_cons.
  rewrite Hrm, remove_comma_numeral_end by assumption.
  rewrite remove_pound_plain by now apply plain_numeral.
  assert (Hstrip : Text.strip (D +:+ numeral_end d1 d2 nl) = D +:+ numeral_end d1 d2 false).
  { unfold Text.strip.
    assert (Hl : Text.lstrip (D +:+ numeral_end d1 d2 nl) = D +:+ numeral_end d1 d2 nl).
    { destruct D as [|d D]; [reflexivity|].
      cbn [Text.all_chars] in HD. apply andb_true_iff in HD as [Hd _].
      rewrite append_cons. apply lstrip_cons. now apply digit_not_space. }
    rewrite Hl, rstrip_app; rewrite rstrip_numeral_end by assumption;
      [reflexivity | discriminate]. }
  rewrite Hstrip. unfold float_of_decimal, numeral_end.
  rewrite span_digits by (assumption || reflexivity).
  replace (Ascii.eqb "." ".") with true by reflexivity.
  cbn [Text.all_chars]. rewrite H1, H2. cbn [andb].
  replace (String.length D + String.length (String d1 (String d2 "")) =? 0)%nat
    with false by (symmetry; apply Nat.eqb_neq; cbn; lia).
  reflexivity.
Qed.

(** A token of amount shape. *)
Lemma amount_token_value text :
  AMOUNT_PATTERN text = true ->
  exists D d1 d2, Text.all_chars Text.is_digit D = true
                  /\ parse_amount text = numeral_value D d1 d2.
Proof.
  unfold AMOUNT_PATTERN. destruct (Re.money text) as [[g rest]|] eqn:Hm; [|discriminate].
  intros Hrest.
  destruct (money_shape _ _ _ Hm) as (body & d1 & d2 & -> & _ & Hne & Hbody & H1 & H2).
  assert (Hnl : exists nl, rest = if nl : bool then newline else "").
  { destruct rest as [|c [|? ?]]; try discriminate.
    - now exists false.
    - apply Ascii.eqb_eq in Hrest as ->. now exists true. }
  destruct Hnl as [nl ->].
  destruct (parse_amount_numeral body d1 d2 nl Hne Hbody H1 H2) as (D & HD & Hv).
  exists D, d1, d2. split; [exact HD | exact Hv].
Qed.

(** The group captured by one of the summary patterns. *)
Lemma amount_group_value s g rest :
  Re.money s = Some (g, rest) ->
  exists D d1 d2, Text.all_chars Text.is_digit D = true
                  /\ parse_amount g = numeral_value D d1 d2.
Proof.
  intros Hm.
  destruct (money_shape _ _ _ Hm) as (body & d1 & d2 & _ & -> & Hne & Hbody & H1 & H2).
  destruct (parse_amount_numeral body d1 d2 false Hne Hbody H1 H2) as (D & HD & Hv).
  exists D, d1, d2. split; [exact HD | exact Hv].
Qed.

Example amount_example : parse_amount "1,234.50" = numeral_value "1234" "5" "0".
Proof. reflexivity. Qed.

(** ** The summary extractor *)

Ltac summary_cases text :=
  unfold summary_dict, labels_found, found, patterns;
  cbn [fold_left List.filter]; unfold summary_step; cbn [fst snd];
  destruct (Re.search OPENING_BALANCE text) as [?g|];
  destruct (Re.search CLOSING_BALANCE text) as [?g|];
  destruct (Re.search PAYMENTS_IN text) as [?g|];
  destruct (Re.search PAYMENTS_OUT text) as [?g|];
  repeat match goal with
         | |- context [parse_amount ?g] => generalize (parse_amount g); intro
         end.

(** The dictionary holds one entry per pattern found. *)
Lemma summary_dict_size text : size (summary_dict text) = labels_found text.
Proof. summary_cases text; vm_compute; reflexivity. Qed.

Lemma summary_dict_missing text :
  (found OPENING_BALANCE text = false -> summary_dict text !! "opening_balance" = None)
  /\ (found CLOSING_BALANCE text = false -> summary_dict text !! "closing_balance" = None)
  /\ (found PAYMENTS_IN text = false -> summary_dict text !! "payments_in" = None)
  /\ (found PAYMENTS_OUT text = false -> summary_dict text !! "payments_out" = None).
Proof.
  summary_cases text; repeat split; intros H;
    try discriminate H; vm_compute; reflexivity.
Qed.

(** C5. [extract_summary] returns a summary exactly when at least two of the
    four patterns are found; a field whose pattern is not found is zero; and
    a text in which all but the payments-out pattern are found gives a
    summary whose [payments_out] is zero. *)
Theorem extract_summary_spec (text : string) :
  (is_Some (extract_summary text) <-> (2 <= labels_found text)%nat)
  /\ (forall s, extract_summary text = Some s ->
        (found OPENING_BALANCE text = false -> StatementSummary.opening_balance s = 0%Q)
        /\ (found CLOSING_BALANCE text = false -> StatementSummary.closing_balance s = 0%Q)
        /\ (found PAYMENTS_IN text = false -> StatementSummary.payments_in s = 0%Q)
        /\ (found PAYMENTS_OUT text = false -> StatementSummary.payments_out s = 0%Q))
  /\ (found OPENING_BALANCE text = true -> found CLOSING_BALANCE text = true ->
      found PAYMENTS_IN text = true -> found PAYMENTS_OUT text = false ->
      exists s, extract_summary text = Some s /\ StatementSummary.payments_out s = 0%Q).
Proof.
  pose proof (summary_dict_size text) as Hsize.
  destruct (summary_dict_missing text) as (Ho & Hc & Hi & Hp).
  unfold extract_summary. rewrite Hsize.
  destruct (2 <=? labels_found text)%nat eqn:Hn.
  - apply Nat.leb_le in Hn. split; [split; [intros _; exact Hn | intros _; eexists; reflexivity]|].
    split.
    + intros s [= <-].
      cbn [StatementSummary.opening_balance StatementSummary.closing_balance
           StatementSummary.payments_in StatementSummary.payments_out].
      repeat split; intros H;
        [rewrite (Ho H) | rewrite (Hc H) | rewrite (Hi H) | rewrite (Hp H)];
        reflexivity.
    + intros _ _ _ H. eexists. split; [reflexivity|].
      cbn [StatementSummary.payments_out]. now rewrite (Hp H).
  - apply Nat.leb_gt in Hn. split; [split; [intros [s Hs]; discriminate | lia]|].
    split; [intros s Hs; discriminate|].
    intros H1 H2 H3 H4. exfalso. revert Hn.
    unfold labels_found, patterns. cbn [List.filter snd].
    rewrite H1, H2, H3, H4. cbn. lia.
Qed.

Example three_labels_summary :
  found PAYMENTS_OUT three_labels_text = false
  /\ extract_summary three_labels_text
     = Some (StatementSummary.mk (123456 # 100) (1000 # 100) (500 # 100) 0).
Proof. split; vm_compute; reflexivity. Qed.

Example one_label_no_summary :
  labels_found "Closing balance 10.00" = 1%nat
  /\ extract_summary "Closing balance 10.00" = None.
Proof. split; vm_compute; reflexivity. Qed.

(** ** The parser *)


Lemma length_pos {A} (l : list A) : (0 <? length l)%nat = true <-> l <> [].
Proof. destruct l; cbn; split; congruence. Qed.

Lemma extract_errors_nil pages_words :
  exists txs, extract_transactions_from_words pages_words = (txs, []).
Proof.
  unfold extract_transactions_from_words.
  rewrite errors_save_transaction, errors_run_pages. eexists. reflexivity.
Qed.

(** The result of [parse] on the path that reaches validation. *)
Lemma parse_content_result ar filename page pages_words pages_text :
  exists txs,
    extract_transactions_from_words (page :: pages_words) = (txs, [])
    /\ parse_content ar filename (page :: pages_words) pages_text
       = ParseResult.mk (0 <? length txs)%nat txs
           (extract_summary (Text.join newline pages_text)) []
           match extract_summary (Text.join newline pages_text) with
           | Some s =>
               let '(is_valid, validation_errors) :=
                 validate_transactions ar txs (Some s) in
               if negb is_valid then validation_errors else []
           | None => []
           end
           filename (length (page :: pages_words)).
Proof.
  destruct (extract_errors_nil (page :: pages_words)) as [txs Htxs].
  exists txs. split; [exact Htxs|].
  unfold parse_content. rewrite Htxs. reflexivity.
Qed.

(** Every result of [parse] is a failure with one error, or the result of
    [parse_content] on at least one page. *)
Lemma parse_cases ar pdf :
  (exists msg page_count,
      parse ar pdf = ParseResult.mk false [] None [msg] [] (Pdf.name pdf) page_count)
  \/ (exists page pages_words pages_text,
        parse ar pdf
        = parse_content ar (Pdf.name pdf) (page :: pages_words) pages_text).
Proof.
  unfold parse.
  destruct (negb (Pdf.exists_ pdf)); [left; eauto|].
  destruct (negb (Text.lower (Pdf.suffix pdf) =? ".pdf")%string); [left; eauto|].
  destruct (Pdf.pages pdf) as [pages|e]; [|left; eauto].
  destruct (_extract_words_and_text pages) as [[|page pages_words] pages_text].
  - left. cbn. eauto.
  - right. eauto.
Qed.

(** C3. The result of [parse] has [success] true exactly when its list of
    errors is empty and its list of transactions is not. *)
Theorem parse_success_iff (ar : arith) (pdf : Pdf.t) :
  ParseResult.success (parse ar pdf) = true
  <-> ParseResult.errors (parse ar pdf) = []
      /\ ParseResult.transactions (parse ar pdf) <> [].
Proof.
  destruct (parse_cases ar pdf) as [(msg & n & ->)|(page & pw & pt & ->)].
  - cbn. split; [discriminate|]. intros [H _]. discriminate.
  - destruct (parse_content_result ar (Pdf.name pdf) page pw pt) as (txs & _ & ->).
    cbn [ParseResult.success ParseResult.errors ParseResult.transactions].
    rewrite length_pos. tauto.
Qed.

(** ** Validation messages *)





Example mismatch_parse neumaier :
  parse (binary64 neumaier) mismatch_pdf
  = ParseResult.mk true [scenario_transaction] (Some mismatch_summary) []
      ["Payments Out mismatch: extracted £12.50, expected £12.00 (diff: £0.50)";
       "Balance calculation: £100.00 + £0.00 - £12.50 = £87.50, expected £80.00"]
      "statement.pdf" 1.
Proof. destruct neumaier; vm_compute; reflexivity. Qed.

(** The comparison is that of the binary64 numbers: 1.02 paid in against
    payments in of 1.00 is a mismatch, [abs(1.02 - 1.0)] being
    0.020000000000000018, although the decimals differ by 0.02. *)
Example tolerance_is_binary64 neumaier :
  let t := Transaction.mk (Date.mk 2024 1 5) "CR" "" None (Some (102 # 100)%Q) None [] in
  let s := StatementSummary.mk 0 (102 # 100) (100 # 100) 0 in
  validate_transactions (binary64 neumaier) [t] (Some s)
  = (false, ["Payments In mismatch: extracted £1.02, expected £1.00 (diff: £0.02)"])
  /\ (Qabs ((102 # 100) - (100 # 100)) == 2 # 100)%Q.
Proof. split; [destruct neumaier; vm_compute; reflexivity | reflexivity]. Qed.

(** The two summations differ: ten times 0.1 is 0.9999999999999999 added
    from left to right, and 1.0 with compensation. *)
Example py_sum_versions :
  py_sum false (repeat (float64 (1 # 10)) 10) = S754_finite false 9007199254740991 (-53)
  /\ py_sum true (repeat (float64 (1 # 10)) 10) = float64 1.
Proof. split; vm_compute; reflexivity. Qed.


(** ** Pages without words *)

Lemma read_page_blank acc page :
  no_words page -> Forall (fun ws => ws = []) acc.1 ->
  Forall (fun ws => ws = []) (read_page acc page).1
  /\ (read_page acc page).1 <> [].
Proof.
  unfold no_words, read_page. destruct acc as [pw pt]. cbn [fst].
  intros Hb Hacc.
  destruct (Page.extract_words page) as [[|w ws]|e]; try contradiction;
    try destruct (Page.extract_text page) as [text|e']; cbn [fst];
    (split; [repeat (apply Forall_app; split; [|repeat constructor]); assumption
            | intros H; apply (f_equal (@length _)) in H;
              rewrite ?length_app in H; cbn in H; lia]).
Qed.

Lemma extract_words_blank pages :
  Forall no_words pages ->
  forall acc, Forall (fun ws => ws = []) acc.1 ->
    Forall (fun ws => ws = []) (fold_left read_page pages acc).1
    /\ (pages <> [] -> (fold_left read_page pages acc).1 <> []).
Proof.
  induction 1 as [|page pages Hp Hps IH]; intros acc Hacc; cbn [fold_left].
  - split; [assumption|]. intros H. contradiction.
  - destruct (read_page_blank acc page Hp Hacc) as [Hall Hne].
    destruct (IH _ Hall) as [IH1 IH2]. split; [assumption|]. intros _.
    destruct pages as [|page' pages']; [exact Hne|]. apply IH2. discriminate.
Qed.

Lemma process_page_empty s : process_page s [] = s.
Proof. reflexivity. Qed.

Lemma run_blank_pages pages_words :
  Forall (fun ws => ws = []) pages_words -> run_pages pages_words = initial_state.
Proof.
  intros H. unfold run_pages. generalize initial_state.
  induction H as [|ws pw -> _ IH]; intros s0; cbn [fold_left]; [reflexivity|].
  rewrite process_page_empty. apply IH.
Qed.

(** C8 (what the code does). When the document opens and has at least one
    page, and no page yields a word, [parse] goes on past the check for
    content: the result has no transaction and [success] false, and its list
    of errors is empty. *)
Theorem blank_pages_no_error (ar : arith) (pdf : Pdf.t) (pages : list Page.t) :
  Pdf.exists_ pdf = true ->
  Text.lower (Pdf.suffix pdf) = ".pdf" ->
  Pdf.pages pdf = Ok pages ->
  pages <> [] ->
  Forall no_words pages ->
  ParseResult.errors (parse ar pdf) = []
  /\ ParseResult.transactions (parse ar pdf) = []
  /\ ParseResult.success (parse ar pdf) = false
  /\ ParseResult.page_count (parse ar pdf) <> 0%nat.
Proof.
  intros He Hs Hp Hne Hblank. unfold parse.
  rewrite He, Hs, Hp. cbn [negb String.eqb].
  replace (".pdf" =? ".pdf")%string with true by reflexivity. cbn [negb].
  unfold _extract_words_and_text.
  destruct (extract_words_blank pages Hblank ([], []) ltac:(constructor))
    as [Hall Hnonempty].
  specialize (Hnonempty Hne).
  destruct (fold_left read_page pages ([], [])) as [[|page pw] pt];
    [contradiction|]. cbn [fst] in Hall.
  unfold parse_content, extract_transactions_from_words.
  rewrite (run_blank_pages _ Hall). cbn [save_transaction initial_state].
  cbn. repeat split. discriminate.
Qed.

Lemma blank_pages_no_error_witness :
  ParseResult.errors (parse (binary64 true) blank_pdf) = []
  /\ ParseResult.transactions (parse (binary64 true) blank_pdf) = []
  /\ ParseResult.success (parse (binary64 true) blank_pdf) = false
  /\ ParseResult.page_count (parse (binary64 true) blank_pdf) <> 0%nat.
Proof.
  apply (blank_pages_no_error (binary64 true) blank_pdf [Page.mk (Ok []) (Ok None)]).
  - reflexivity.
  - reflexivity.
  - reflexivity.
  - discriminate.
  - constructor; [exact I | constructor].
Defined.

Example blank_parse :
  parse (binary64 true) blank_pdf = ParseResult.mk false [] None [] [] "blank.pdf" 1.
Proof. vm_compute. reflexivity. Qed.

(** A document without pages is the one case the check for content catches. *)
Example no_pages_parse :
  parse (binary64 true) (Pdf.mk "empty.pdf" "empty.pdf" ".pdf" true (Ok []))
  = ParseResult.mk false [] None ["No content could be extracted from PDF"] []
      "empty.pdf" 0.
Proof. vm_compute. reflexivity. Qed.

(** ** A document without summary *)

(** The validator has a message for a missing summary, and stays valid. *)
Lemma validate_without_summary ar t txs :
  validate_transactions ar (t :: txs) None
  = (true, ["Could not extract statement summary for validation"]).
Proof. reflexivity. Qed.

(** C9 (what the code does). When the result of [parse] has no summary, its
    list of warnings is empty; [success] is then true exactly when there is
    a transaction. *)
Theorem absent_summary_no_warning (ar : arith) (pdf : Pdf.t) :
  ParseResult.summary (parse ar pdf) = None ->
  ParseResult.warnings (parse ar pdf) = []
  /\ (ParseResult.success (parse ar pdf) = true
      <-> ParseResult.transactions (parse ar pdf) <> []).
Proof.
  destruct (parse_cases ar pdf) as [(msg & n & ->)|(page & pw & pt & ->)].
  - intros _. cbn. split; [reflexivity|]. split; [discriminate|]. intros H. now elim H.
  - destruct (parse_content_result ar (Pdf.name pdf) page pw pt) as (txs & _ & ->).
    cbn [ParseResult.summary ParseResult.warnings ParseResult.success
         ParseResult.transactions].
    intros ->. split; [reflexivity|]. apply length_pos.
Qed.

Lemma absent_summary_no_warning_witness :
  ParseResult.warnings (parse (binary64 true) no_summary_pdf) = []
  /\ (ParseResult.success (parse (binary64 true) no_summary_pdf) = true
      <-> ParseResult.transactions (parse (binary64 true) no_summary_pdf) <> []).
Proof.
  apply (absent_summary_no_warning (binary64 true) no_summary_pdf).
  vm_compute. reflexivity.
Defined.

Example no_summary_parse :
  parse (binary64 true) no_summary_pdf
  = ParseResult.mk true [scenario_transaction] None [] [] "statement.pdf" 1.
Proof. vm_compute. reflexivity. Qed.

(** ** Worked examples *)

Example unordered_finalized :
  map Transaction.description (finalized [unordered_page]) = ["A"; "B"; "C"].
Proof. vm_compute. reflexivity. Qed.

Example unordered_sorted :
  map Transaction.description (extract_transactions_from_words [unordered_page]).1
  = ["B"; "C"; "A"].
Proof. vm_compute. reflexivity. Qed.

(** The finalize rule on the scenario: the accumulator is complete at the
    end of the page, and the candidate is emitted. *)
Lemma save_transaction_emits_witness :
  Transaction.description scenario_transaction
  = Text.join " " (current_description_parts (run_pages [scenario_page])).
Proof.
  apply (proj1 (proj1 (proj2 (save_transaction_emits (run_pages [scenario_page])))
                  scenario_transaction ltac:(vm_compute; reflexivity))).
Defined.

(** The summary of a text with three of the four labels. *)
Lemma extract_summary_spec_witness :
  exists s, extract_summary three_labels_text = Some s
            /\ StatementSummary.payments_out s = 0%Q.
Proof.
  apply (proj2 (proj2 (extract_summary_spec three_labels_text)));
    vm_compute; reflexivity.
Defined.

(** * Further properties of the code *)

(** ** What the emitted transactions are made of *)

Section CandidateFields.
Variables (Pd : Date.t -> Prop) (Pp : string -> Prop).
Hypothesis date_ok : forall d m y dt, parse_date_parts d m y = Some dt -> Pd dt.
Hypothesis line_ok :
  forall ws p, Line.payment_type (classify_line ws) = Some p -> Pp p.

Lemma save_transaction_fields_ok s :
  fields_ok Pd Pp s -> fields_ok Pd Pp (save_transaction s).
Proof.
  intros (Hd & Hp & Htx). unfold fields_ok, save_transaction.
  cbn [current_date current_payment_type transactions].
  split; [exact Hd|]. split; [exact Hp|].
  destruct (current_date s) as [d|]; [|assumption].
  destruct (current_payment_type s) as [p|]; [|assumption].
  destruct (nonempty p && has_amount s); [|assumption].
  apply Forall_app. split; [assumption|].
  constructor; [|constructor]. cbn. split; [now apply Hd | now apply Hp].
Qed.

Lemma apply_line_fields_ok ws s :
  fields_ok Pd Pp s -> fields_ok Pd Pp (apply_line (classify_line ws) s).
Proof.
  intros Hs. pose proof (line_ok ws) as Hl. revert Hl.
  generalize (classify_line ws). intros l Hl. unfold apply_line.
  assert (H1 : fields_ok Pd Pp (on_date l s)).
  { unfold on_date.
    destruct (Line.date_parts l) as [|d [|m [|y [|? ?]]]]; try assumption.
    destruct (save_transaction_fields_ok s Hs) as (_ & Hp & Htx).
    split; [|split; assumption].
    cbn [set_current_date current_date]. intros dt. apply date_ok. }
  assert (H2 : fields_ok Pd Pp (on_payment_type l (on_date l s))).
  { revert H1. generalize (on_date l s). intros s1 H1. unfold on_payment_type.
    destruct (truthy_str (Line.payment_type l)); [|assumption].
    assert (H : fields_ok Pd Pp
                  (if truthy_str (current_payment_type s1) && has_amount s1
                   then save_transaction s1 else s1))
      by (destruct (_ && _); [now apply save_transaction_fields_ok | assumption]).
    destruct H as (Hd & _ & Htx). split; [exact Hd|]. split; [|exact Htx].
    cbn [set_current_payment_type current_payment_type]. exact Hl. }
  assert (H3 : fields_ok Pd Pp (on_description l (on_payment_type l (on_date l s)))).
  { revert H2. generalize (on_payment_type l (on_date l s)). intros s2 H2.
    unfold on_description. destruct (Line.description_words l); [assumption|].
    destruct (truthy_str (current_payment_type s2)); exact H2. }
  exact H3.
Qed.

Lemma run_pages_fields_ok pages_words : fields_ok Pd Pp (run_pages pages_words).
Proof.
  apply (run_pages_invariant (fields_ok Pd Pp)).
  - intros s ws Hs. unfold process_line.
    repeat match goal with |- context [if ?b then _ else _] => destruct b end;
      try assumption.
    + destruct (save_transaction_fields_ok s Hs) as (Hd & _ & Htx).
      split; [exact Hd|]. split; [discriminate | exact Htx].
    + now apply apply_line_fields_ok.
  - split; [discriminate|]. split; [discriminate | constructor].
Qed.

Lemma extract_fields_ok pages_words :
  Forall (fun t => Pd (Transaction.date t) /\ Pp (Transaction.payment_type t))
    (extract_transactions_from_words pages_words).1.
Proof.
  unfold extract_transactions_from_words. cbn [fst]. apply sort_by_Forall.
  apply (save_transaction_fields_ok _ (run_pages_fields_ok pages_words)).
Qed.
End CandidateFields.

Lemma mem_string_In x l : mem_string x l = true -> In x l.
Proof.
  unfold mem_string. intros H. apply existsb_exists in H as (y & Hy & E).
  apply String.eqb_eq in E. now subst.
Qed.

Lemma classify_word_payment_type l w :
  (forall p, Line.payment_type l = Some p -> In p PAYMENT_TYPES) ->
  forall p, Line.payment_type (classify_word l w) = Some p -> In p PAYMENT_TYPES.
Proof.
  intros Hl p. unfold classify_word.
  destruct (mem_string (Text.upper (LineWord.text w)) (map Text.upper PAYMENT_TYPES))
    eqn:Hm.
  - repeat match goal with |- context [if ?b then _ else _] => destruct b end;
      cbn; try apply Hl.
    intros [= <-]. apply mem_string_In in Hm. exact Hm.
  - repeat match goal with |- context [if ?b then _ else _] => destruct b end;
      cbn; try apply Hl.
    intros [= <-]. vm_compute. tauto.
Qed.

Lemma classify_line_payment_type ws p :
  Line.payment_type (classify_line ws) = Some p -> In p PAYMENT_TYPES.
Proof.
  unfold classify_line.
  assert (H : forall q, Line.payment_type Line.empty = Some q -> In q PAYMENT_TYPES)
    by discriminate.
  revert H p. generalize Line.empty.
  induction ws as [|w ws IH]; intros l Hl p; cbn [fold_left]; [apply Hl|].
  apply IH. now apply classify_word_payment_type.
Qed.

(** X1. The payment type of every transaction returned by
    [extract_transactions_from_words] is one of the codes of [PAYMENT_TYPES],
    in upper case whatever the case of the word on the page. *)
Theorem extract_payment_types (pages_words : list (list Word.t)) :
  Forall (fun t => In (Transaction.payment_type t) PAYMENT_TYPES)
    (extract_transactions_from_words pages_words).1.
Proof.
  eapply List.Forall_impl;
    [|apply (extract_fields_ok (fun _ => True) (fun p => In p PAYMENT_TYPES))].
  - intros t [_ H]. exact H.
  - trivial.
  - intros ws p. apply classify_line_payment_type.
Qed.

(** ** Dates *)

Lemma digit_value_range c :
  Text.is_digit c = true -> 0 <= digit_value c <= 9.
Proof.
  unfold Text.is_digit, digit_value. intros H.
  apply andb_true_iff in H as [H1 H2]. apply N.leb_le in H1, H2. lia.
Qed.

Lemma first_match_some {A B} (f : A -> option B) l b :
  first_match f l = Some b -> exists a, In a l /\ f a = Some b.
Proof.
  induction l as [|a l IH]; cbn [first_match]; [discriminate|].
  destruct (f a) as [b'|] eqn:E.
  - intros [= <-]. exists a. split; [now left | exact E].
  - intros H. destruct (IH H) as (a' & Hin & Ha'). exists a'. split; [now right | exact Ha'].
Qed.

Lemma char_in_digit lo hi c :
  Text.is_digit lo = true -> Text.is_digit hi = true -> char_in lo hi c = true ->
  Text.is_digit c = true /\ Text.is_space c = false
  /\ digit_value lo <= digit_value c <= digit_value hi.
Proof.
  unfold char_in, Text.is_digit, Text.is_space, digit_value. intros Hlo Hhi H.
  apply andb_true_iff in Hlo as [L1 L2]. apply andb_true_iff in Hhi as [H1 H2].
  apply andb_true_iff in H as [C1 C2].
  apply N.leb_le in L1, L2, H1, H2, C1, C2.
  split; [|split; [|lia]].
  - apply andb_true_iff. split; apply N.leb_le; lia.
  - apply orb_false_iff. split; apply andb_false_iff.
    + right. apply N.leb_gt. lia.
    + right. apply N.leb_gt. lia.
Qed.

Lemma strptime_d_two lo1 hi1 lo2 hi2 a b d :
  Text.is_digit lo1 = true -> Text.is_digit hi1 = true ->
  Text.is_digit lo2 = true -> Text.is_digit hi2 = true ->
  char_in lo1 hi1 a && char_in lo2 hi2 b = true ->
  d = 10 * digit_value a + digit_value b ->
  day_numeral (String a (String b "")) d
  /\ 10 * digit_value lo1 + digit_value lo2 <= d <= 10 * digit_value hi1 + digit_value hi2.
Proof.
  intros L1 H1 L2 H2 H ->. apply andb_true_iff in H as [Ha Hb].
  apply char_in_digit in Ha as (Da & Sa & Ra); [|assumption..].
  apply char_in_digit in Hb as (Db & Sb & Rb); [|assumption..].
  split; [|lia]. unfold day_numeral. cbn [String.length Text.lstrip]. rewrite Sa.
  cbn [Text.isdigit Text.all_chars digits_value]. rewrite Da, Db.
  split; [lia|]. split; [reflexivity | lia].
Qed.

Ltac digit_literals :=
  change (digit_value "0") with 0; change (digit_value "1") with 1;
  change (digit_value "2") with 2; change (digit_value "3") with 3;
  change (digit_value "9") with 9.

Lemma strptime_d_spec s d rest :
  In (d, rest) (strptime_d s) ->
  exists D, s = D +:+ rest /\ day_numeral D d /\ 1 <= d <= 31.
Proof.
  unfold strptime_d. rewrite !in_app_iff.
  intros [H|[H|[H|[H|H]]]].
  - destruct s as [|a [|b r]]; try contradiction.
    destruct (char_in "3" "3" a && char_in "0" "1" b) eqn:E; [|contradiction].
    destruct H as [[= <- <-]|[]].
    exists (String a (String b "")). split; [reflexivity|].
    eapply strptime_d_two in E as [Hn Hr]; [|reflexivity..].
    split; [exact Hn|]. revert Hr. digit_literals. lia.
  - destruct s as [|a [|b r]]; try contradiction.
    destruct (char_in "1" "2" a && char_in "0" "9" b) eqn:E; [|contradiction].
    destruct H as [[= <- <-]|[]].
    exists (String a (String b "")). split; [reflexivity|].
    eapply strptime_d_two in E as [Hn Hr]; [|reflexivity..].
    split; [exact Hn|]. revert Hr. digit_literals. lia.
  - destruct s as [|a [|b r]]; try contradiction.
    destruct (char_in "0" "0" a && char_in "1" "9" b) eqn:E; [|contradiction].
    destruct H as [[= <- <-]|[]].
    exists (String a (String b "")). split; [reflexivity|].
    eapply strptime_d_two in E as [Hn Hr]; [|reflexivity..].
    split; [exact Hn|]. revert Hr. digit_literals. lia.
  - destruct s as [|a r]; [contradiction|].
    destruct (char_in "1" "9" a) eqn:E; [|contradiction].
    destruct H as [[= <- <-]|[]].
    exists (String a ""). split; [reflexivity|].
    apply char_in_digit in E as (Da & Sa & Ra); [|reflexivity..].
    revert Ra. digit_literals. intros Ra. unfold day_numeral. cbn [String.length Text.lstrip]. rewrite Sa.
    cbn [Text.isdigit Text.all_chars digits_value]. rewrite Da.
    split; [split; [lia | split; [reflexivity | lia]] | lia].
  - destruct s as [|sp [|a r]]; try contradiction.
    destruct (Ascii.eqb sp " " && char_in "1" "9" a) eqn:E; [|contradiction].
    destruct H as [[= <- <-]|[]].
    apply andb_true_iff in E as [Esp E]. apply Ascii.eqb_eq in Esp as ->.
    exists (String " " (String a "")). split; [reflexivity|].
    apply char_in_digit in E as (Da & Sa & Ra); [|reflexivity..].
    revert Ra. digit_literals. intros Ra. unfold day_numeral. cbn [String.length].
    change (Text.lstrip (String " " (String a ""))) with (Text.lstrip (String a "")).
    cbn [Text.lstrip]. rewrite Sa.
    cbn [Text.isdigit Text.all_chars digits_value]. rewrite Da.
    split; [split; [lia | split; [reflexivity | lia]] | lia].
Qed.

Lemma lstrip_split s :
  exists w, s = w +:+ Text.lstrip s /\ Text.all_chars Text.is_space w = true.
Proof.
  induction s as [|c s (w & Hs & Hw)]; [exists ""; split; reflexivity|].
  cbn [Text.lstrip]. destruct (Text.is_space c) eqn:E.
  - exists (String c w). split.
    + rewrite append_cons. now f_equal.
    + cbn [Text.all_chars]. now rewrite E.
  - exists "". split; reflexivity.
Qed.

Lemma spaces1_spec s rest :
  spaces1 s = Some rest -> exists w, s = w +:+ rest /\ blank w.
Proof.
  destruct s as [|c s]; [discriminate|]. cbn [spaces1].
  destruct (Text.is_space c) eqn:E; [|discriminate]. intros [= <-].
  destruct (lstrip_split s) as (w & Hs & Hw).
  exists (String c w). split; [rewrite append_cons; now f_equal|].
  split; [discriminate|]. cbn [Text.all_chars]. now rewrite E.
Qed.

Lemma lit_ci_spec l : forall s rest,
  Re.lit_ci l s = Some rest ->
  exists M, s = M +:+ rest /\ Text.upper M = Text.upper l.
Proof.
  induction l as [|a l IH]; intros s rest.
  - cbn [Re.lit_ci]. intros [= <-]. exists "". split; reflexivity.
  - destruct s as [|b s]; [discriminate|]. cbn [Re.lit_ci].
    destruct (Ascii.eqb (Text.upper_char a) (Text.upper_char b)) eqn:E; [|discriminate].
    intros H. apply IH in H as (M & -> & HM). apply Ascii.eqb_eq in E.
    exists (String b M). split; [reflexivity|].
    cbn [Text.upper Text.map_chars]. f_equal; [now symmetry | exact HM].
Qed.

Lemma month_at_spec names : forall i s m rest,
  month_at names i s = Some (m, rest) ->
  exists M, s = M +:+ rest
    /\ i <= m < i + Z.of_nat (length names)
    /\ nth_error (map Text.upper names) (Z.to_nat (m - i)) = Some (Text.upper M).
Proof.
  induction names as [|name names IH]; intros i s m rest; cbn [month_at]; [discriminate|].
  destruct (Re.lit_ci name s) as [r|] eqn:E.
  - intros [= <- <-]. apply lit_ci_spec in E as (M & -> & HM).
    exists M. split; [reflexivity|]. cbn [length]. split; [lia|].
    replace (i - i) with 0 by lia. cbn. now rewrite HM.
  - intros H. apply IH in H as (M & -> & Hr & Hn).
    exists M. split; [reflexivity|]. cbn [length]. split; [lia|].
    replace (m - i) with (Z.succ (m - (i + 1))) by lia.
    rewrite Z2Nat.inj_succ by lia. exact Hn.
Qed.

Lemma strptime_y_spec s y rest :
  strptime_y s = Some (y, rest) ->
  exists Y, s = Y +:+ rest /\ year_numeral Y y /\ 1969 <= y <= 2068.
Proof.
  destruct s as [|a [|b r]]; try discriminate. cbn [strptime_y].
  destruct (Text.is_digit a) eqn:Da; [|discriminate].
  destruct (Text.is_digit b) eqn:Db; [|discriminate]. cbn [andb].
  intros [= <- <-]. exists (String a (String b "")). split; [reflexivity|].
  pose proof (digit_value_range a Da) as Ra. pose proof (digit_value_range b Db) as Rb.
  unfold year_numeral. cbn [String.length Text.isdigit Text.all_chars digits_value].
  rewrite Da, Db.
  destruct (10 * digit_value a + digit_value b <? 69) eqn:E;
    [apply Z.ltb_lt in E | apply Z.ltb_ge in E].
  - split; [|lia]. split; [reflexivity|]. split; [reflexivity|].
    replace (2000 + (10 * digit_value a + digit_value b))
      with (10 * digit_value a + digit_value b + 20 * 100) by lia.
    rewrite Z_mod_plus_full. rewrite Z.mod_small; lia.
  - split; [|lia]. split; [reflexivity|]. split; [reflexivity|].
    replace (1900 + (10 * digit_value a + digit_value b))
      with (10 * digit_value a + digit_value b + 19 * 100) by lia.
    rewrite Z_mod_plus_full. rewrite Z.mod_small; lia.
Qed.

Lemma append_empty_r s : s +:+ "" = s.
Proof. induction s as [|c s IH]; [reflexivity|]. rewrite append_cons. now f_equal. Qed.

(** What a successful [strptime] has read. *)
Lemma strptime_spec data_string d :
  strptime data_string = Some d ->
  valid_date d
  /\ exists D w1 M w2 Y,
       data_string = D +:+ w1 +:+ M +:+ w2 +:+ Y
       /\ day_numeral D (Date.day d) /\ blank w1
       /\ month_name M (Date.month d) /\ blank w2
       /\ year_numeral Y (Date.year d).
Proof.
  unfold strptime.
  destruct (first_match strptime_tail (strptime_d data_string))
    as [[[[dd mm] yy] rest]|] eqn:E; [|discriminate].
  destruct rest; [|discriminate].
  destruct (dd <=? Date.days_in_month yy mm) eqn:Hle; [|discriminate].
  intros [= <-]. apply Z.leb_le in Hle.
  apply first_match_some in E as ([d0 r0] & Hin & Ht).
  apply strptime_d_spec in Hin as (D & -> & HD & Hd).
  cbn [strptime_tail] in Ht.
  destruct (spaces1 r0) as [r1|] eqn:E1; [|discriminate].
  destruct (strptime_b r1) as [[m0 r2]|] eqn:E2; [|discriminate].
  destruct (spaces1 r2) as [r3|] eqn:E3; [|discriminate].
  destruct (strptime_y r3) as [[y0 r4]|] eqn:E4; [|discriminate].
  injection Ht as -> -> -> ->.
  apply spaces1_spec in E1 as (w1 & -> & Hw1).
  apply month_at_spec in E2 as (M & -> & Hm & HM).
  apply spaces1_spec in E3 as (w2 & -> & Hw2).
  apply strptime_y_spec in E4 as (Y & -> & HY & Hy).
  cbn [length MONTHS] in Hm.
  split; [unfold valid_date; cbn [Date.year Date.month Date.day]; lia|].
  exists D, w1, M, w2, Y. cbn [Date.year Date.month Date.day].
  split; [now rewrite append_empty_r|].
  split; [exact HD|]. split; [exact Hw1|]. split; [exact HM|].
  split; [exact Hw2 | exact HY].
Qed.

Lemma parse_date_parts_valid_helper (day month year : string) (d : Date.t) :
  parse_date_parts day month year = Some d -> valid_date d.
Proof. intros H. now apply strptime_spec in H. Qed.

(** X2. A date that [parse_date_parts] returns is a date of the calendar (month
    1..12, day 1 up to the length of that month in that year, year in
    1969..2068).  For parts in ASCII it is the date that the joined text
    [day month year] spells: the text is a day numeral, white space, the
    abbreviation of a month in any case, white space, and two digits, and the
    date has that day, that month, and a year that ends in those digits.
    (White space within the parts is read as the format reads it: [5 ],
    [Jan], [24] give the 5th of January.) *)
Theorem parse_date_parts_valid (day month year : string) (d : Date.t) :
  parse_date_parts day month year = Some d ->
  valid_date d
  /\ (ascii_only day = true -> ascii_only month = true -> ascii_only year = true ->
      exists D w1 M w2 Y,
        day +:+ " " +:+ month +:+ " " +:+ year = D +:+ w1 +:+ M +:+ w2 +:+ Y
        /\ day_numeral D (Date.day d) /\ blank w1
        /\ month_name M (Date.month d) /\ blank w2
        /\ year_numeral Y (Date.year d)).
Proof.
  intros H. apply strptime_spec in H as [Hv He]. split; [exact Hv|]. intros _ _ _. exact He.
Qed.

Lemma parse_date_parts_valid_witness :
  valid_date (Date.mk 2024 2 29)
  /\ (ascii_only "29" = true -> ascii_only "Feb" = true -> ascii_only "24" = true ->
      exists D w1 M w2 Y,
        "29" +:+ " " +:+ "Feb" +:+ " " +:+ "24" = D +:+ w1 +:+ M +:+ w2 +:+ Y
        /\ day_numeral D (Date.day (Date.mk 2024 2 29)) /\ blank w1
        /\ month_name M (Date.month (Date.mk 2024 2 29)) /\ blank w2
        /\ year_numeral Y (Date.year (Date.mk 2024 2 29))).
Proof.
  apply (parse_date_parts_valid "29" "Feb" "24"). reflexivity.
Defined.

Example date_white_space :
  parse_date_parts "" "5 Jan" "24" = Some (Date.mk 2024 1 5)
  /\ parse_date_parts "5 " "Jan" "24" = Some (Date.mk 2024 1 5)
  /\ parse_date_parts "5" "Jan" "24 " = None
  /\ parse_date_parts "  5" "Jan" "24" = None.
Proof. repeat split; reflexivity. Qed.

(** X3. The date of every transaction returned by
    [extract_transactions_from_words] is a date of the calendar with its year
    in 1969..2068. *)
Theorem extract_dates_valid (pages_words : list (list Word.t)) :
  Forall (fun t => valid_date (Transaction.date t))
    (extract_transactions_from_words pages_words).1.
Proof.
  eapply List.Forall_impl;
    [|apply (extract_fields_ok valid_date (fun _ => True))].
  - intros t [H _]. exact H.
  - intros d m y dt. apply parse_date_parts_valid_helper.
  - trivial.
Qed.

(** ** Sorting keeps the transactions *)

(** X4. The list returned by [extract_transactions_from_words] holds exactly
    the finalized transactions, each as often as it was finalized: sorting
    drops none and repeats none. *)
Theorem extract_permutation (pages_words : list (list Word.t)) :
  Permutation (extract_transactions_from_words pages_words).1 (finalized pages_words)
  /\ length (extract_transactions_from_words pages_words).1
     = length (finalized pages_words).
Proof.
  assert (H : Permutation (extract_transactions_from_words pages_words).1
                (finalized pages_words))
    by apply sort_by_perm.
  split; [exact H | now apply Permutation_length].
Qed.

(** ** Steps of the assembler *)

Lemma has_amount_save_transaction s : has_amount (save_transaction s) = false.
Proof. reflexivity. Qed.

Lemma transactions_save_no_anchor s :
  truthy_str (current_payment_type s) = false ->
  transactions (save_transaction s) = transactions s.
Proof.
  unfold save_transaction. cbn [transactions].
  destruct (current_date s); [|reflexivity].
  destruct (current_payment_type s) as [p|]; [|reflexivity].
  cbn [truthy_str]. now intros ->.
Qed.


(** X5. While no payment type is active, a line without a payment type emits
    nothing and adds none of its words to the description: the accumulated
    words stay as they are, or are cleared when the line carries a date. *)
Theorem no_anchor_drops_words (l : Line.t) (s : state) :
  truthy_str (current_payment_type s) = false ->
  truthy_str (Line.payment_type l) = false ->
  transactions (apply_line l s) = transactions s
  /\ current_payment_type (apply_line l s) = current_payment_type s
  /\ (current_description_parts (apply_line l s) = current_description_parts s
      \/ current_description_parts (apply_line l s) = []).
Proof.
  intros Hs Hl. unfold apply_line, on_payment_type. rewrite Hl.
  cbn [set_amounts transactions current_payment_type current_description_parts].
  assert (H : truthy_str (current_payment_type (on_date l s)) = false)
    by now rewrite payment_type_on_date.
  unfold on_description. rewrite H.
  replace (match Line.description_words l with
           | [] => on_date l s
           | _ :: _ => on_date l s
           end) with (on_date l s) by (destruct (Line.description_words l); reflexivity).
  rewrite payment_type_on_date. unfold on_date.
  destruct (Line.date_parts l) as [|d [|m [|y [|? ?]]]]; auto.
  cbn [set_current_date transactions current_description_parts save_transaction].
  split; [|auto].
  now apply transactions_save_no_anchor.
Qed.

Lemma no_anchor_drops_words_witness :
  let l := classify_line [LineWord.mk 150 "stray"; LineWord.mk 200 "text"] in
  transactions (apply_line l initial_state) = transactions initial_state
  /\ current_payment_type (apply_line l initial_state)
     = current_payment_type initial_state
  /\ (current_description_parts (apply_line l initial_state)
      = current_description_parts initial_state
      \/ current_description_parts (apply_line l initial_state) = []).
Proof.
  apply (no_anchor_drops_words
           (classify_line [LineWord.mk 150 "stray"; LineWord.mk 200 "text"])
           initial_state); reflexivity.
Defined.

(** X6. A new payment type does not finalize a candidate that has no amount
    yet: on a line without a date, nothing is emitted, the new code replaces
    the old one, and the words of the line are appended to the words already
    accumulated, which thus pass on to the next transaction. *)
Theorem anchor_without_amount_merges (l : Line.t) (s : state) (p : string) :
  has_amount s = false ->
  length (Line.date_parts l) <> 3%nat ->
  Line.payment_type l = Some p -> p <> "" ->
  transactions (apply_line l s) = transactions s
  /\ current_payment_type (apply_line l s) = Some p
  /\ current_description_parts (apply_line l s)
     = current_description_parts s ++ Line.description_words l.
Proof.
  intros Ha Hd Hp Hne. unfold apply_line.
  assert (H1 : on_date l s = s).
  { unfold on_date. destruct (Line.date_parts l) as [|? [|? [|? [|? ?]]]];
      try reflexivity. now elim Hd. }
  rewrite H1. unfold on_payment_type. rewrite Hp, Ha, andb_false_r.
  assert (Ht : truthy_str (Some p) = true) by (destruct p; [now elim Hne | reflexivity]).
  rewrite Ht. unfold on_description.
  cbn [set_current_payment_type current_payment_type]. rewrite Ht.
  destruct (Line.description_words l) as [|w ws];
    cbn [set_amounts extend_description transactions current_payment_type
         current_description_parts];
    repeat split; try reflexivity.
  now rewrite app_nil_r.
Qed.

Lemma anchor_without_amount_merges_witness :
  let l := classify_line [LineWord.mk 110 "VIS"; LineWord.mk 150 "Shop"] in
  let s := apply_line (classify_line [LineWord.mk 110 "DD"; LineWord.mk 150 "Gym"])
             initial_state in
  transactions (apply_line l s) = transactions s
  /\ current_payment_type (apply_line l s) = Some "VIS"
  /\ current_description_parts (apply_line l s)
     = current_description_parts s ++ Line.description_words l.
Proof.
  apply (anchor_without_amount_merges
           (classify_line [LineWord.mk 110 "VIS"; LineWord.mk 150 "Shop"])
           (apply_line (classify_line [LineWord.mk 110 "DD"; LineWord.mk 150 "Gym"])
              initial_state)
           "VIS").
  - reflexivity.
  - vm_compute. discriminate.
  - reflexivity.
  - discriminate.
Defined.

Example merged_description :
  map Transaction.description
    (extract_transactions_from_words
       [[ Word.mk "5" 50 100; Word.mk "Jan" 60 100; Word.mk "24" 80 100;
          Word.mk "DD" 110 110; Word.mk "Gym" 150 110;
          Word.mk "VIS" 110 120; Word.mk "Shop" 150 120; Word.mk "9.99" 400 120 ]]).1
  = ["Gym Shop"].
Proof. vm_compute. reflexivity. Qed.



(** ** Results of [parse] *)

(** X9. A parse that finds a summary and no transaction reports it as the one
    warning "No transactions extracted": its errors are empty, and [success]
    is false. *)
Theorem summary_without_transactions (ar : arith) (pdf : Pdf.t)
    (s : StatementSummary.t) :
  ParseResult.summary (parse ar pdf) = Some s ->
  ParseResult.transactions (parse ar pdf) = [] ->
  ParseResult.warnings (parse ar pdf) = ["No transactions extracted"]
  /\ ParseResult.errors (parse ar pdf) = []
  /\ ParseResult.success (parse ar pdf) = false.
Proof.
  destruct (parse_cases ar pdf) as [(msg & n & ->)|(page & pw & pt & ->)];
    [discriminate|].
  destruct (parse_content_result ar (Pdf.name pdf) page pw pt) as (txs & _ & ->).
  cbn [ParseResult.transactions ParseResult.summary ParseResult.warnings
       ParseResult.errors ParseResult.success].
  intros -> ->. repeat split.
Qed.

Lemma summary_without_transactions_witness :
  let pdf := Pdf.mk "s.pdf" "s.pdf" ".pdf" true
               (Ok [Page.mk (Ok []) (Ok (Some three_labels_text))]) in
  ParseResult.warnings (parse (binary64 true) pdf) = ["No transactions extracted"]
  /\ ParseResult.errors (parse (binary64 true) pdf) = []
  /\ ParseResult.success (parse (binary64 true) pdf) = false.
Proof.
  apply (summary_without_transactions (binary64 true)
           (Pdf.mk "s.pdf" "s.pdf" ".pdf" true
              (Ok [Page.mk (Ok []) (Ok (Some three_labels_text))]))
           (StatementSummary.mk (123456 # 100) (1000 # 100) (500 # 100) 0)).
  - vm_compute. reflexivity.
  - vm_compute. reflexivity.
Defined.

(** X10. The result of [parse] never has more than one error, and a result
    with an error is empty: no transaction, no summary, no warning, and
    [success] false. *)
Theorem parse_error_shape (ar : arith) (pdf : Pdf.t) :
  ParseResult.errors (parse ar pdf) = []
  \/ (exists msg, ParseResult.errors (parse ar pdf) = [msg])
     /\ ParseResult.transactions (parse ar pdf) = []
     /\ ParseResult.summary (parse ar pdf) = None
     /\ ParseResult.warnings (parse ar pdf) = []
     /\ ParseResult.success (parse ar pdf) = false.
Proof.
  destruct (parse_cases ar pdf) as [(msg & n & ->)|(page & pw & pt & ->)].
  - right. cbn. split; [now exists msg | repeat split].
  - left. destruct (parse_content_result ar (Pdf.name pdf) page pw pt) as (txs & _ & ->).
    reflexivity.
Qed.

(** ** Reading the pages *)

Lemma read_page_lengths acc page :
  length (read_page acc page).1
  = (length acc.1 + 1 + (if text_fails_after_words page then 1 else 0))%nat
  /\ length (read_page acc page).2 = (length acc.2 + 1)%nat.
Proof.
  destruct acc as [pw pt]. unfold read_page, text_fails_after_words. cbn [fst snd].
  destruct (Page.extract_words page) as [ws|e];
    [destruct (Page.extract_text page) as [text|e']|];
    cbn [fst snd]; rewrite !length_app; cbn [length]; lia.
Qed.

Lemma read_pages_lengths pages : forall acc,
  length (fold_left read_page pages acc).1
  = (length acc.1 + length pages
     + length (List.filter text_fails_after_words pages))%nat
  /\ length (fold_left read_page pages acc).2 = (length acc.2 + length pages)%nat.
Proof.
  induction pages as [|page pages IH]; intros acc; cbn [fold_left length List.filter].
  - lia.
  - destruct (IH (read_page acc page)) as [H1 H2].
    destruct (read_page_lengths acc page) as [H3 H4].
    rewrite H1, H2, H3, H4.
    destruct (text_fails_after_words page); cbn [length]; lia.
Qed.

(** X11. [_extract_words_and_text] returns one text per page, and one list of
    words per page plus one more, empty, for every page whose text could not
    be read after its words had been: the page count of a parse is the
    number of pages plus the number of such pages. *)
Theorem page_count_counts_failed_texts (pages : list Page.t) :
  length (_extract_words_and_text pages).2 = length pages
  /\ length (_extract_words_and_text pages).1
     = (length pages + length (List.filter text_fails_after_words pages))%nat
  /\ forall ar pdf,
       Pdf.exists_ pdf = true -> Text.lower (Pdf.suffix pdf) = ".pdf" ->
       Pdf.pages pdf = Ok pages ->
       ParseResult.page_count (parse ar pdf)
       = (length pages + length (List.filter text_fails_after_words pages))%nat.
Proof.
  unfold _extract_words_and_text.
  destruct (read_pages_lengths pages ([], [])) as [H1 H2]. cbn [fst snd length] in *.
  split; [lia|]. split; [lia|].
  intros ar pdf He Hs Hp. unfold parse, _extract_words_and_text.
  rewrite He, Hs, Hp. replace (".pdf" =? ".pdf")%string with true by reflexivity.
  cbn [negb].
  destruct (fold_left read_page pages ([], [])) as [pw pt]. cbn [fst snd] in *.
  unfold parse_content. destruct pw as [|page pw].
  - cbn in *. lia.
  - destruct (extract_transactions_from_words (page :: pw)) as [txs errs].
    cbn [ParseResult.page_count]. lia.
Qed.

Lemma page_count_counts_failed_texts_witness :
  ParseResult.page_count
    (parse (binary64 true) (Pdf.mk "s.pdf" "s.pdf" ".pdf" true
                    (Ok [Page.mk (Ok scenario_page) (Raise "no text")])))
  = 2%nat.
Proof.
  apply (proj2 (proj2 (page_count_counts_failed_texts
                         [Page.mk (Ok scenario_page) (Raise "no text")]))
           (binary64 true)
           (Pdf.mk "s.pdf" "s.pdf" ".pdf" true
              (Ok [Page.mk (Ok scenario_page) (Raise "no text")])));
    reflexivity.
Defined.

Lemma extract_well_formed pages_words :
  well_formed (extract_transactions_from_words pages_words).1.
Proof.
  split.
  - unfold extract_transactions_from_words. cbn [fst].
    eapply StronglySorted_weaken;
      [|apply (sort_by_sorted Date.ltb Transaction.date
                 date_ltb_asym date_ltb_trans_neg)].
    intros a b H. apply date_le_iff. exact H.
  - assert (Ha : Forall amounts_ok (extract_transactions_from_words pages_words).1).
    { unfold extract_transactions_from_words. cbn [fst]. apply sort_by_Forall.
      assert (H : state_amounts_ok (run_pages pages_words)).
      { apply (run_pages_invariant state_amounts_ok).
        - intros s ws. apply process_line_amounts_ok.
        - repeat split; constructor. }
      apply save_transaction_amounts_ok in H. apply H. }
    pose proof (extract_fields_ok valid_date (fun p => In p PAYMENT_TYPES)
                  parse_date_parts_valid_helper classify_line_payment_type
                  pages_words) as Hf.
    rewrite List.Forall_forall in *. intros t Ht.
    destruct (Hf t Ht) as [Hd Hp]. auto.
Qed.

(** X12. In every result of [parse] the transactions are in non-decreasing
    order of date, and each has a payment type of the vocabulary, a date of
    the calendar, no negative amount and a positive paid-out or paid-in. *)
Theorem parse_transactions_well_formed (ar : arith) (pdf : Pdf.t) :
  well_formed (ParseResult.transactions (parse ar pdf)).
Proof.
  destruct (parse_cases ar pdf) as [(msg & n & ->)|(page & pw & pt & ->)].
  - split; constructor.
  - destruct (parse_content_result ar (Pdf.name pdf) page pw pt) as (txs & Htxs & ->).
    cbn [ParseResult.transactions].
    pose proof (extract_well_formed (page :: pw)) as H. now rewrite Htxs in H.
Qed.

(** ** Reading amounts *)

Lemma remove_comma_app body tail :
  Text.all_chars Re.money_char body = true ->
  Text.remove "," (body +:+ tail) = Text.remove "," body +:+ Text.remove "," tail
  /\ Text.all_chars Text.is_digit (Text.remove "," body) = true.
Proof.
  induction body as [|c body IH]; intros H.
  - split; reflexivity.
  - cbn [Text.all_chars] in H. apply andb_true_iff in H as [Hc Hb].
    destruct (IH Hb) as [Heq HD].
    rewrite append_cons, !remove_comma_cons, Heq.
    destruct (Ascii.eqb c ",") eqn:E.
    + split; [reflexivity | exact HD].
    + split; [reflexivity|].
      cbn [Text.all_chars]. rewrite HD.
      unfold Re.money_char in Hc. rewrite E, orb_false_r in Hc. now rewrite Hc.
Qed.

Lemma strip_numeral D d1 d2 nl :
  Text.all_chars Text.is_digit D = true ->
  Text.is_digit d1 = true -> Text.is_digit d2 = true ->
  Text.strip (D +:+ numeral_end d1 d2 nl) = D +:+ numeral_end d1 d2 false.
Proof.
  intros HD H1 H2. unfold Text.strip.
  assert (Hl : Text.lstrip (D +:+ numeral_end d1 d2 nl) = D +:+ numeral_end d1 d2 nl).
  { destruct D as [|d D]; [reflexivity|].
    cbn [Text.all_chars] in HD. apply andb_true_iff in HD as [Hd _].
    rewrite append_cons. apply lstrip_cons. now apply digit_not_space. }
  rewrite Hl, rstrip_app; rewrite rstrip_numeral_end by assumption;
    [reflexivity | discriminate].
Qed.

Lemma float_of_numeral D d1 d2 :
  Text.all_chars Text.is_digit D = true ->
  Text.is_digit d1 = true -> Text.is_digit d2 = true ->
  float_of_decimal (D +:+ numeral_end d1 d2 false) = Some (numeral_value D d1 d2).
Proof.
  intros HD H1 H2. unfold float_of_decimal, numeral_end.
  rewrite span_digits by (assumption || reflexivity).
  replace (Ascii.eqb "." ".") with true by reflexivity.
  cbn [Text.all_chars]. rewrite H1, H2. cbn [andb].
  replace (String.length D + String.length (String d1 (String d2 "")) =? 0)%nat
    with false by (symmetry; apply Nat.eqb_neq; cbn; lia).
  reflexivity.
Qed.

Lemma parse_amount_body body d1 d2 nl :
  body <> "" ->
  Text.all_chars Re.money_char body = true ->
  Text.is_digit d1 = true -> Text.is_digit d2 = true ->
  Text.all_chars Text.is_digit (Text.remove "," body) = true
  /\ parse_amount (body +:+ numeral_end d1 d2 nl)
     = numeral_value (Text.remove "," body) d1 d2.
Proof.
  intros Hne Hbody H1 H2.
  destruct (remove_comma_app body (numeral_end d1 d2 nl) Hbody) as [Hrm HD].
  split; [exact HD|].
  unfold parse_amount.
  destruct body as [|b body]; [contradiction|].
  rewrite append_cons. cbv beta iota. rewrite <- append_cons.
  rewrite Hrm, remove_comma_numeral_end by assumption.
  rewrite remove_pound_plain by now apply plain_numeral.
  rewrite strip_numeral, float_of_numeral by assumption. reflexivity.
Qed.

(** X13. An ASCII word that matches [AMOUNT_PATTERN] is an integer part of
    digits and commas, a full stop and two digits (and maybe a final line
    feed); what is left of it for [float] is a decimal numeral, so the
    fallback to zero is never taken, and the float that [parse_amount]
    returns is the binary64 number nearest to the value of that numeral with
    the commas dropped. *)
Theorem amount_token_reading (text : string) :
  ascii_only text = true ->
  AMOUNT_PATTERN text = true ->
  exists body d1 d2 nl,
    text = body +:+ numeral_end d1 d2 nl
    /\ body <> ""
    /\ Text.all_chars Re.money_char body = true
    /\ Text.is_digit d1 = true /\ Text.is_digit d2 = true
    /\ Text.all_chars Text.is_digit (Text.remove "," body) = true
    /\ float_of_decimal (Text.strip (Text.remove "£" (Text.remove "," text)))
       = Some (numeral_value (Text.remove "," body) d1 d2)
    /\ float64 (parse_amount text)
       = float64 (numeral_value (Text.remove "," body) d1 d2).
Proof.
  intros _.
  unfold AMOUNT_PATTERN. destruct (Re.money text) as [[g rest]|] eqn:Hm; [|discriminate].
  intros Hrest.
  destruct (money_shape _ _ _ Hm) as (body & d1 & d2 & -> & _ & Hne & Hbody & H1 & H2).
  assert (Hnl : exists nl, rest = if nl : bool then newline else "").
  { destruct rest as [|c [|? ?]]; try discriminate.
    - now exists false.
    - apply Ascii.eqb_eq in Hrest as ->. now exists true. }
  destruct Hnl as [nl ->].
  destruct (parse_amount_body body d1 d2 nl Hne Hbody H1 H2) as [HD Hv].
  destruct (remove_comma_app body (numeral_end d1 d2 nl) Hbody) as [Hrm _].
  exists body, d1, d2, nl.
  split; [reflexivity|]. split; [exact Hne|]. split; [exact Hbody|].
  split; [exact H1|]. split; [exact H2|]. split; [exact HD|]. split.
  - change (body +:+ String "." (String d1 (String d2 (if nl then newline else ""))))
      with (body +:+ numeral_end d1 d2 nl).
    rewrite Hrm, remove_comma_numeral_end by assumption.
    rewrite remove_pound_plain by now apply plain_numeral.
    rewrite strip_numeral, float_of_numeral by assumption. reflexivity.
  - change (body +:+ String "." (String d1 (String d2 (if nl then newline else ""))))
      with (body +:+ numeral_end d1 d2 nl).
    now rewrite Hv.
Qed.

Lemma amount_token_reading_witness :
  exists body d1 d2 nl,
    "1,234.50" = body +:+ numeral_end d1 d2 nl
    /\ body <> ""
    /\ Text.all_chars Re.money_char body = true
    /\ Text.is_digit d1 = true /\ Text.is_digit d2 = true
    /\ Text.all_chars Text.is_digit (Text.remove "," body) = true
    /\ float_of_decimal (Text.strip (Text.remove "£" (Text.remove "," "1,234.50")))
       = Some (numeral_value (Text.remove "," body) d1 d2)
    /\ float64 (parse_amount "1,234.50")
       = float64 (numeral_value (Text.remove "," body) d1 d2).
Proof. apply (amount_token_reading "1,234.50"); reflexivity. Defined.

(** The float of a numeral is not its value: twenty nines before the full
    stop give 1e20, and four hundred give an infinity. *)
Example amount_rounded :
  float64 (parse_amount "99999999999999999999.99") = float64 (100000000000000000000 # 1)
  /\ float64 (parse_amount (Text.join "" (repeat "9" 400) +:+ ".00"))
     = S754_infinity false.
Proof. split; vm_compute; reflexivity. Qed.

Lemma remove_comma_idem s : Text.remove "," (Text.remove "," s) = Text.remove "," s.
Proof.
  induction s as [|c s IH]; [reflexivity|].
  rewrite remove_comma_cons. destruct (Ascii.eqb c ",") eqn:E; [exact IH|].
  rewrite remove_comma_cons, E, IH. reflexivity.
Qed.

Lemma remove_pound_pound s : Text.remove "£" ("£" +:+ s) = Text.remove "£" s.
Proof.
  change ("£" +:+ s) with (String "194" (String "163" s)).
  unfold Text.remove. cbn [Text.remove_from]. unfold Text.starts_with.
  cbn [String.prefix].
  destruct (ascii_dec "194" "194") as [_|n]; [|congruence].
  destruct (ascii_dec "163" "163") as [_|n]; [|congruence].
  rewrite prefix_empty. reflexivity.
Qed.

Lemma remove_comma_pound s :
  Text.remove "," ("£" +:+ s) = "£" +:+ Text.remove "," s.
Proof.
  change ("£" +:+ s) with (String "194" (String "163" s)).
  rewrite !remove_comma_cons. reflexivity.
Qed.

(** X14. [parse_amount] reads through the marks of a written amount: commas,
    wherever they stand, and a pound sign in front do not change the value. *)
Theorem parse_amount_ignores_marks (amount_str : string) :
  parse_amount (Text.remove "," amount_str) = parse_amount amount_str
  /\ parse_amount ("£" +:+ amount_str) = parse_amount amount_str.
Proof.
  split.
  - unfold parse_amount. rewrite remove_comma_idem.
    destruct amount_str as [|c s]; [reflexivity|].
    destruct (Text.remove "," (String c s)) eqn:E; reflexivity.
  - unfold parse_amount.
    change ("£" +:+ amount_str) with (String "194" (String "163" amount_str)).
    cbv beta iota.
    change (String "194" (String "163" amount_str)) with ("£" +:+ amount_str).
    rewrite remove_comma_pound, remove_pound_pound.
    destruct amount_str as [|c s]; reflexivity.
Qed.

(** ** The fields of the summary *)









(** ** The summary and the case of letters *)

Ltac all_chars c := destruct c as [[] [] [] [] [] [] [] []]; reflexivity.

Lemma upper_char_idem c : Text.upper_char (Text.upper_char c) = Text.upper_char c.
Proof. all_chars c. Qed.

Lemma is_space_upper c : Text.is_space (Text.upper_char c) = Text.is_space c.
Proof. all_chars c. Qed.

Lemma money_char_upper c : Re.money_char (Text.upper_char c) = Re.money_char c.
Proof. all_chars c. Qed.

Lemma is_digit_upper c : Text.is_digit (Text.upper_char c) = Text.is_digit c.
Proof. all_chars c. Qed.

Lemma dot_upper c : Ascii.eqb (Text.upper_char c) "." = Ascii.eqb c ".".
Proof. all_chars c. Qed.

Lemma money_char_fixed c : Re.money_char c = true -> Text.upper_char c = c.
Proof. intros H. money_char_cases c H; reflexivity. Qed.

Lemma digit_fixed c : Text.is_digit c = true -> Text.upper_char c = c.
Proof.
  intros H. apply money_char_fixed. unfold Re.money_char. now rewrite H.
Qed.

Lemma lit_ci_upper l s :
  Re.lit_ci l (Text.upper s) = option_map Text.upper (Re.lit_ci l s).
Proof.
  revert s. induction l as [|a l IH]; intros s; [reflexivity|].
  destruct s as [|b s]; [reflexivity|].
  cbn [Text.upper Text.map_chars Re.lit_ci]. rewrite upper_char_idem.
  destruct (Ascii.eqb (Text.upper_char a) (Text.upper_char b)); [apply IH | reflexivity].
Qed.

Lemma opt_ci_upper l s : Re.opt_ci l (Text.upper s) = Text.upper (Re.opt_ci l s).
Proof.
  unfold Re.opt_ci. rewrite lit_ci_upper. now destruct (Re.lit_ci l s).
Qed.

Lemma spaces_upper s : Re.spaces (Text.upper s) = Text.upper (Re.spaces s).
Proof.
  unfold Re.spaces. induction s as [|c s IH]; [reflexivity|].
  cbn [Text.upper Text.map_chars Text.lstrip]. rewrite is_space_upper.
  destruct (Text.is_space c); [exact IH | reflexivity].
Qed.

Lemma span_money_upper s :
  Text.span Re.money_char (Text.upper s)
  = ((Text.span Re.money_char s).1, Text.upper (Text.span Re.money_char s).2).
Proof.
  induction s as [|c s IH]; [reflexivity|].
  cbn [Text.upper Text.map_chars Text.span]. rewrite money_char_upper.
  destruct (Re.money_char c) eqn:Hc; [|reflexivity].
  change (Text.map_chars Text.upper_char s) with (Text.upper s). rewrite IH.
  rewrite (money_char_fixed c Hc).
  destruct (Text.span Re.money_char s) as [a b]. reflexivity.
Qed.

Lemma money_upper s : Re.money (Text.upper s) = map_rest Text.upper (Re.money s).
Proof.
  unfold Re.money. rewrite span_money_upper.
  destruct (Text.span Re.money_char s) as [body rest]. cbn [fst snd].
  destruct body as [|b body]; [reflexivity|].
  destruct rest as [|dot [|d1 [|d2 rest]]]; try reflexivity.
  cbn [Text.upper Text.map_chars].
  rewrite dot_upper, !is_digit_upper.
  destruct (Ascii.eqb dot ".") eqn:Hdot; [|reflexivity].
  destruct (Text.is_digit d1) eqn:H1; [|reflexivity].
  destruct (Text.is_digit d2) eqn:H2; [|reflexivity].
  apply Ascii.eqb_eq in Hdot as ->.
  rewrite (digit_fixed d1 H1), (digit_fixed d2 H2). reflexivity.
Qed.

Lemma label_upper first second optional_s s :
  label first second optional_s (Text.upper s)
  = map_rest Text.upper (label first second optional_s s).
Proof.
  unfold label. rewrite lit_ci_upper.
  destruct (Re.lit_ci first s) as [s1|]; [|reflexivity]. cbn [option_map].
  assert (H : (if optional_s then Re.opt_ci "s" (Text.upper s1) else Text.upper s1)
              = Text.upper (if optional_s then Re.opt_ci "s" s1 else s1))
    by (destruct optional_s; [apply opt_ci_upper | reflexivity]).
  rewrite H, spaces_upper, lit_ci_upper.
  destruct (Re.lit_ci second _) as [s3|]; [|reflexivity]. cbn [option_map].
  now rewrite spaces_upper, opt_ci_upper, money_upper.
Qed.

Lemma search_upper (m : Re.matcher string) :
  (forall s, m (Text.upper s) = map_rest Text.upper (m s)) ->
  forall text, Re.search m (Text.upper text) = Re.search m text.
Proof.
  intros Hm text. induction text as [|c text IH].
  - reflexivity.
  - change (Text.upper (String c text)) with (String (Text.upper_char c) (Text.upper text)).
    cbn [Re.search].
    change (String (Text.upper_char c) (Text.upper text)) with (Text.upper (String c text)).
    rewrite Hm.
    destruct (m (String c text)) as [[g r]|]; [reflexivity|].
    cbn [map_rest Text.upper Text.map_chars]. exact IH.
Qed.

(** X16. [extract_summary] does not see the case of letters: the text in
    upper case gives the same summary as the text itself. *)
Theorem extract_summary_ignores_case (text : string) :
  extract_summary (Text.upper text) = extract_summary text.
Proof.
  assert (H : summary_dict (Text.upper text) = summary_dict text).
  { unfold summary_dict, patterns. cbn [fold_left]. unfold summary_step.
    cbn [fst snd].
    unfold OPENING_BALANCE, CLOSING_BALANCE, PAYMENTS_IN, PAYMENTS_OUT.
    rewrite !(search_upper _ (label_upper _ _ _)). reflexivity. }
  unfold extract_summary. now rewrite H.
Qed.

(** ** Rounding and the lines of a page *)

(** X17. [round(top, 0)] is an integer nearest to [top]: the two differ by at
    most one half.  Hence two words put on the same line have tops that
    differ by at most one unit. *)
Theorem py_round_nearest (a b : Q) :
  (Qabs (a - inject_Z (py_round a)) <= 1 # 2)%Q
  /\ (py_round a = py_round b -> (Qabs (a - b) <= 1)%Q).
Proof.
  assert (H : forall q, (Qabs (q - inject_Z (py_round q)) <= 1 # 2)%Q).
  { intros [n d]. unfold py_round. cbn [Qnum Qden].
    pose proof (Z.div_mod n (Z.pos d) ltac:(lia)) as Hdm.
    pose proof (Z.mod_pos_bound n (Z.pos d) ltac:(lia)) as Hr.
    set (f := n / Z.pos d) in *. set (r := n mod Z.pos d) in *.
    clearbody f r. apply Qabs_Qle_condition.
    assert (Hcase : forall k, (k = f \/ k = f + 1) ->
              2 * Z.abs (n - k * Z.pos d) <= Z.pos d ->
              (- (1 # 2) <= (n # d) - inject_Z k <= 1 # 2)%Q).
    { intros k _ Hk. unfold Qle, Qminus, Qplus, Qopp, inject_Z.
      cbn [Qnum Qden]. rewrite Pos.mul_1_r, !Z.mul_opp_l.
      generalize dependent (k * Z.pos d). intros p Hp. lia. }
    assert (H0 : n - f * Z.pos d = r) by lia.
    assert (H1 : n - (f + 1) * Z.pos d = r - Z.pos d) by lia.
    destruct (2 * r ?= Z.pos d) eqn:Hc.
    - apply Z.compare_eq in Hc. destruct (Z.even f).
      + apply Hcase; auto. rewrite H0. lia.
      + apply Hcase; auto. rewrite H1. lia.
    - rewrite Z.compare_lt_iff in Hc. apply Hcase; auto. rewrite H0. lia.
    - rewrite Z.compare_gt_iff in Hc. apply Hcase; auto. rewrite H1. lia. }
  split; [apply H|].
  intros Heq. pose proof (H a) as Ha. pose proof (H b) as Hb. rewrite Heq in Ha.
  apply Qabs_Qle_condition in Ha, Hb. apply Qabs_Qle_condition. lra.
Qed.

Lemma py_round_nearest_witness :
  (Qabs ((1204 # 10) - (1196 # 10)) <= 1)%Q.
Proof.
  apply (proj2 (py_round_nearest (1204 # 10) (1196 # 10))). reflexivity.
Defined.

Lemma add_word_lookup lines w y :
  add_word lines w !! y
  = if decide (py_round (Word.top w) = y)
    then Some (default [] (lines !! y) ++ [to_line_word w])
    else lines !! y.
Proof.
  unfold add_word. rewrite lookup_insert.
  destruct (decide (py_round (Word.top w) = y)) as [<-|]; reflexivity.
Qed.

Lemma group_fold_lookup words : forall (lines : gmap Z (list LineWord.t)) y,
  fold_left add_word words lines !! y
  = match words_at y words with
    | [] => lines !! y
    | ws => Some (default [] (lines !! y) ++ map to_line_word ws)
    end.
Proof.
  induction words as [|w words IH]; intros lines y; [reflexivity|].
  cbn [fold_left]. rewrite IH, add_word_lookup.
  unfold words_at. cbn [List.filter].
  destruct (decide (py_round (Word.top w) = y)) as [E|E].
  - rewrite (proj2 (Z.eqb_eq _ _) E).
    destruct (List.filter _ words); cbn [default map]; [reflexivity|].
    unfold id. now rewrite <- app_assoc.
  - rewrite (proj2 (Z.eqb_neq _ _) E). reflexivity.
Qed.

Lemma group_lines_lookup words y :
  default [] (group_lines words !! y) = map to_line_word (words_at y words)
  /\ (is_Some (group_lines words !! y) <-> words_at y words <> []).
Proof.
  unfold group_lines. rewrite group_fold_lookup, lookup_empty.
  destruct (words_at y words) as [|w ws]; cbn [default].
  - split; [reflexivity|]. split; [intros [? H]; discriminate | congruence].
  - split; [reflexivity|]. split; [discriminate | eauto].
Qed.

Lemma words_at_nonempty y words :
  words_at y words <> [] <-> exists w, In w words /\ py_round (Word.top w) = y.
Proof.
  unfold words_at. split.
  - destruct (List.filter _ words) as [|w ws] eqn:E; [congruence|]. intros _.
    assert (H : In w (List.filter (fun w => py_round (Word.top w) =? y) words))
      by (rewrite E; now left).
    apply filter_In in H as [H1 H2]. apply Z.eqb_eq in H2. eauto.
  - intros (w & Hw & Hy) E.
    assert (H : In w (List.filter (fun w => py_round (Word.top w) =? y) words))
      by (apply filter_In; split; [assumption | now apply Z.eqb_eq]).
    rewrite E in H. destruct H.
Qed.

Lemma keys_spec (lines : gmap Z (list LineWord.t)) :
  NoDup (map fst (map_to_list lines))
  /\ forall y, In y (map fst (map_to_list lines)) <-> is_Some (lines !! y).
Proof.
  split.
  - apply (NoDup_fst_map_to_list lines).
  - intros y. rewrite in_map_iff. split.
    + intros ([k v] & <- & H). apply list_elem_of_In in H.
      apply elem_of_map_to_list in H. cbn. eauto.
    + intros [v H]. exists (y, v). split; [reflexivity|].
      apply list_elem_of_In. now apply elem_of_map_to_list.
Qed.

Lemma sorted_nodup_strict (l : list Z) :
  StronglySorted (key_le Z.ltb id) l -> NoDup l -> StronglySorted Z.lt l.
Proof.
  induction 1 as [|a l Hs IH Ha]; intros Hnd; [constructor|].
  inversion Hnd as [|? ? Hnotin Hnd']; subst.
  constructor; [now apply IH|].
  rewrite List.Forall_forall in *. intros b Hb.
  specialize (Ha b Hb). unfold key_le, id in Ha. apply Z.ltb_ge in Ha.
  assert (a <> b) by (intros ->; apply Hnotin; now apply list_elem_of_In).
  lia.
Qed.

Lemma sorted_keys_spec (lines : gmap Z (list LineWord.t)) :
  StronglySorted Z.lt (sorted_keys lines)
  /\ NoDup (sorted_keys lines)
  /\ forall y, In y (sorted_keys lines) <-> is_Some (lines !! y).
Proof.
  destruct (keys_spec lines) as [Hnd Hin]. unfold sorted_keys.
  pose proof (sort_by_perm Z.ltb id (map fst (map_to_list lines))) as Hp.
  assert (Hnd' : NoDup (sort_by Z.ltb id (map fst (map_to_list lines)))).
  { rewrite Hp. exact Hnd. }
  split; [|split; [exact Hnd'|]].
  - apply sorted_nodup_strict; [|exact Hnd'].
    apply sort_by_sorted.
    + intros x y H. apply Z.ltb_lt in H. apply Z.ltb_ge. lia.
    + intros x y z H1 H2. apply Z.ltb_ge in H1, H2. apply Z.ltb_ge. lia.
  - intros y. rewrite <- Hin. split; apply Permutation_in; [exact Hp | now symmetry].
Qed.

(** X18. The lines of a page, as the loop visits them, are the groups of
    words with the same rounded [top], one line for each value that occurs,
    in strictly increasing order of that value; each line holds its words in
    the order of the page, then sorted by [x]. *)
Theorem page_lines_by_top (words : list Word.t) :
  page_lines words
  = map (fun y => sort_by Qltb LineWord.x (map to_line_word (words_at y words)))
      (sorted_keys (group_lines words))
  /\ StronglySorted Z.lt (sorted_keys (group_lines words))
  /\ forall y, In y (sorted_keys (group_lines words))
               <-> exists w, In w words /\ py_round (Word.top w) = y.
Proof.
  destruct (sorted_keys_spec (group_lines words)) as (Hs & _ & Hin).
  split; [|split; [exact Hs|]].
  - unfold page_lines. apply map_ext. intros y.
    now rewrite (proj1 (group_lines_lookup words y)).
  - intros y. rewrite Hin, (proj2 (group_lines_lookup words y)).
    apply words_at_nonempty.
Qed.

Lemma concat_insert_at {A} (g : Z -> list A) (a : A) (k0 : Z) (ks : list Z) :
  NoDup ks -> In k0 ks ->
  Permutation (concat (map (fun k => if k0 =? k then a :: g k else g k) ks))
    (a :: concat (map g ks)).
Proof.
  induction ks as [|k ks IH]; intros Hnd Hin; [destruct Hin|].
  inversion Hnd as [|? ? Hnotin Hnd']; subst. cbn [map concat].
  destruct (Z.eqb_spec k0 k) as [->|Hne].
  - assert (E : map (fun k' => if k =? k' then a :: g k' else g k') ks = map g ks).
    { apply map_ext_in. intros k' Hk'.
      destruct (Z.eqb_spec k k') as [->|]; [|reflexivity].
      exfalso. apply Hnotin. now apply list_elem_of_In. }
    rewrite E. reflexivity.
  - destruct Hin as [->|Hin]; [congruence|].
    rewrite (IH Hnd' Hin). symmetry. apply Permutation_middle.
Qed.

Lemma concat_partition {A} (f : A -> Z) (l : list A) (ks : list Z) :
  NoDup ks -> (forall a, In a l -> In (f a) ks) ->
  Permutation (concat (map (fun k => List.filter (fun a => f a =? k) l) ks)) l.
Proof.
  intros Hnd. induction l as [|a l IH]; intros Hin.
  - cbn [List.filter]. induction ks as [|k ks IHk]; [reflexivity|].
    inversion Hnd; subst. cbn [map concat app]. now apply IHk.
  - cbn [List.filter].
    rewrite (concat_insert_at
               (fun k => List.filter (fun b => f b =? k) l) a (f a) ks Hnd
               (Hin a (or_introl eq_refl))).
    constructor. apply IH. intros b Hb. apply Hin. now right.
Qed.

Lemma concat_map_perm {A} (f g : Z -> list A) (ks : list Z) :
  (forall k, Permutation (f k) (g k)) ->
  Permutation (concat (map f ks)) (concat (map g ks)).
Proof.
  intros H. induction ks as [|k ks IH]; [reflexivity|].
  cbn [map concat]. now rewrite (H k), IH.
Qed.

Lemma concat_map_map {A B} (h : A -> B) (g : Z -> list A) (ks : list Z) :
  concat (map (fun k => map h (g k)) ks) = map h (concat (map g ks)).
Proof.
  induction ks as [|k ks IH]; [reflexivity|].
  cbn [map concat]. now rewrite IH, map_app.
Qed.

Lemma Qltb_asym x y : Qltb x y = true -> Qltb y x = false.
Proof. rewrite Qltb_true, Qltb_false. apply Qlt_le_weak. Qed.

Lemma Qltb_trans_neg x y z : Qltb y x = false -> Qltb z y = false -> Qltb z x = false.
Proof. rewrite !Qltb_false. apply Qle_trans. Qed.

(** X19. Grouping the words of a page into lines neither loses a word nor
    repeats one: the lines together hold exactly the words of the page.  No
    line is empty, and the words of each line stand in non-decreasing order
    of [x]. *)
Theorem page_lines_keep_words (words : list Word.t) :
  Permutation (concat (page_lines words)) (map to_line_word words)
  /\ Forall (fun line =>
               line <> []
               /\ StronglySorted (fun a b => (LineWord.x a <= LineWord.x b)%Q) line)
       (page_lines words).
Proof.
  destruct (sorted_keys_spec (group_lines words)) as (_ & Hnd & Hin).
  assert (Hlines : page_lines words
                   = map (fun y => sort_by Qltb LineWord.x
                                     (map to_line_word (words_at y words)))
                       (sorted_keys (group_lines words))).
  { unfold page_lines. apply map_ext. intros y.
    now rewrite (proj1 (group_lines_lookup words y)). }
  split.
  - rewrite Hlines.
    rewrite (concat_map_perm _
               (fun y => map to_line_word (words_at y words)))
      by (intros k; apply sort_by_perm).
    rewrite concat_map_map. apply Permutation_map.
    apply (concat_partition (fun w => py_round (Word.top w))); [exact Hnd|].
    intros w Hw. apply Hin, (proj2 (group_lines_lookup words _)).
    apply words_at_nonempty. eauto.
  - rewrite Hlines. apply List.Forall_forall. intros line Hline.
    apply in_map_iff in Hline as (y & <- & Hy). split.
    + apply Hin, (proj2 (group_lines_lookup words y)) in Hy.
      destruct (words_at y words) as [|w ws]; [congruence|]. intros E.
      apply (f_equal (@length _)) in E.
      rewrite (Permutation_length (sort_by_perm Qltb LineWord.x _)) in E.
      discriminate.
    + eapply StronglySorted_weaken;
        [|apply (sort_by_sorted Qltb LineWord.x Qltb_asym Qltb_trans_neg)].
      intros a b H. unfold key_le in H. now apply Qltb_false in H.
Qed.

Example grouped_lines :
  map (map LineWord.text)
    (page_lines [ Word.mk "b" 200 (1011 # 10); Word.mk "c" 50 (3 # 1);
                  Word.mk "a" 100 (1009 # 10) ])
  = [["c"]; ["a"; "b"]].
Proof. vm_compute. reflexivity. Qed.

(** ** CSV rows *)

Lemma amount_cell_nonempty ar prefix amount :
  prefix <> "" ->
  (amount_cell ar prefix amount <> "" <-> positive_opt amount).
Proof.
  intros Hp. unfold amount_cell, positive_opt. destruct amount as [v|]; [|tauto].
  destruct (Qltb 0 v) eqn:Hv.
  - assert (Hpos : (0 < v)%Q) by now apply Qltb_true.
    assert (Ht : truthy v = true).
    { unfold truthy. apply negb_true_iff. destruct (Qeq_bool v 0) eqn:E; [|reflexivity].
      apply Qeq_bool_iff in E. rewrite E in Hpos. now apply Qlt_irrefl in Hpos. }
    rewrite Ht. cbn [andb]. split; [intros _; exact Hpos|]. intros _.
    destruct prefix; [contradiction | discriminate].
  - rewrite andb_false_r. split; [congruence|]. intros H.
    apply Qltb_true in H. congruence.
Qed.

(** X20. In the row of a transaction, Income is filled exactly when paid-in is
    present and positive, Expenses exactly when paid-out is; a transaction
    with amounts as the extractor gives them has at least one of the two
    filled, and so has every row made from the extractor's list. *)
Theorem to_csv_row_amounts (ar : arith) (t : Transaction.t) :
  (CsvRow.Income (to_csv_row ar t) <> "" <-> positive_opt (Transaction.paid_in t))
  /\ (CsvRow.Expenses (to_csv_row ar t) <> "" <-> positive_opt (Transaction.paid_out t))
  /\ (amounts_ok t ->
      CsvRow.Income (to_csv_row ar t) <> "" \/ CsvRow.Expenses (to_csv_row ar t) <> "")
  /\ forall pages_words,
       Forall (fun t => CsvRow.Income (to_csv_row ar t) <> ""
                        \/ CsvRow.Expenses (to_csv_row ar t) <> "")
         (extract_transactions_from_words pages_words).1.
Proof.
  assert (Hi : forall t, CsvRow.Income (to_csv_row ar t) <> ""
                         <-> positive_opt (Transaction.paid_in t))
    by (intros t'; apply amount_cell_nonempty; discriminate).
  assert (Ho : forall t, CsvRow.Expenses (to_csv_row ar t) <> ""
                         <-> positive_opt (Transaction.paid_out t))
    by (intros t'; apply amount_cell_nonempty; discriminate).
  assert (Hok : forall t, amounts_ok t ->
            CsvRow.Income (to_csv_row ar t) <> ""
            \/ CsvRow.Expenses (to_csv_row ar t) <> "").
  { intros t' (_ & _ & [H|H]); [right; now apply Ho | left; now apply Hi]. }
  split; [apply Hi|]. split; [apply Ho|]. split; [apply Hok|].
  intros pages_words.
  eapply List.Forall_impl; [exact Hok|].
  destruct (extract_well_formed pages_words) as [_ H].
  eapply List.Forall_impl; [|exact H]. intros t' (H' & _). exact H'.
Qed.

Lemma to_csv_row_amounts_witness :
  CsvRow.Income (to_csv_row (binary64 true) scenario_transaction) <> ""
  \/ CsvRow.Expenses (to_csv_row (binary64 true) scenario_transaction) <> "".
Proof.
  apply (proj1 (proj2 (proj2 (to_csv_row_amounts (binary64 true) scenario_transaction)))).
  unfold amounts_ok, scenario_transaction. cbn.
  split; [unfold Qle; cbn; lia|]. split; [exact I|]. left. unfold Qlt. cbn. lia.
Defined.

Example scenario_csv :
  generate_csv (binary64 true) [scenario_transaction] true
  = "Date,Bank,Description,Income,Expenses" +:+ String CR (String LF "")
    +:+ "05/01/2024,hsbc,Direct Debit ABC,,-£12.50" +:+ String CR (String LF "").
Proof. vm_compute. reflexivity. Qed.

(** ** The combined list *)

Lemma sort_by_sorted_id {A K} (ltb : K -> K -> bool) (key : A -> K) (l : list A) :
  StronglySorted (key_le ltb key) l -> sort_by ltb key l = l.
Proof.
  induction 1 as [|a l Hs IH Ha]; [reflexivity|].
  cbn [sort_by]. rewrite IH. destruct l as [|b l]; [reflexivity|].
  cbn [insert_by]. inversion Ha as [|? ? Hab _]; subst.
  unfold key_le in Hab. now rewrite Hab.
Qed.

Lemma extract_key_sorted pages_words :
  StronglySorted (key_le Date.ltb Transaction.date)
    (extract_transactions_from_words pages_words).1.
Proof.
  unfold extract_transactions_from_words. cbn [fst].
  apply (sort_by_sorted Date.ltb Transaction.date date_ltb_asym date_ltb_trans_neg).
Qed.

(** X21. The list that [generate_combined_csv] writes holds exactly the
    transactions of all statements, in non-decreasing order of date;
    transactions of one date keep the order of the statements and, within a
    statement, their order in it. *)
Theorem combined_sorted_stable (all_transactions : list (list Transaction.t)) :
  Permutation (combined all_transactions) (concat all_transactions)
  /\ StronglySorted (fun a b => date_le (Transaction.date a) (Transaction.date b))
       (combined all_transactions)
  /\ forall d,
       List.filter (fun t => Date.eqb (Transaction.date t) d) (combined all_transactions)
       = List.filter (fun t => Date.eqb (Transaction.date t) d)
           (concat all_transactions).
Proof.
  unfold combined. split; [apply sort_by_perm|]. split.
  - eapply StronglySorted_weaken;
      [|apply (sort_by_sorted Date.ltb Transaction.date
                 date_ltb_asym date_ltb_trans_neg)].
    intros a b H. apply date_le_iff. exact H.
  - intros d.
    apply (filter_sort_by Date.ltb Transaction.date (fun k => Date.eqb k d)).
    intros x y. apply date_eqb_not_below.
Qed.

(** X22. For one statement whose transactions are already in order of date,
    as the list returned by [extract_transactions_from_words] always is, the
    combined CSV is the CSV of that statement. *)
Theorem combined_csv_of_one (ar : arith) (transactions : list Transaction.t) :
  (StronglySorted (fun a b => date_le (Transaction.date a) (Transaction.date b))
     transactions ->
   generate_combined_csv ar [transactions] = generate_csv ar transactions true)
  /\ forall pages_words,
       generate_combined_csv ar [(extract_transactions_from_words pages_words).1]
       = generate_csv ar (extract_transactions_from_words pages_words).1 true.
Proof.
  assert (H : forall l, StronglySorted (key_le Date.ltb Transaction.date) l ->
                        generate_combined_csv ar [l] = generate_csv ar l true).
  { intros l Hl. unfold generate_combined_csv, combined. cbn [concat].
    rewrite app_nil_r. now rewrite sort_by_sorted_id. }
  split.
  - intros Hs. apply H. eapply StronglySorted_weaken; [|exact Hs].
    intros a b Hab. apply date_le_iff. exact Hab.
  - intros pages_words. apply H, extract_key_sorted.
Qed.

Lemma combined_csv_of_one_witness :
  generate_combined_csv (binary64 true) [[scenario_transaction]]
  = generate_csv (binary64 true) [scenario_transaction] true.
Proof.
  apply (proj1 (combined_csv_of_one (binary64 true) [scenario_transaction])).
  repeat constructor.
Defined.

(** ** Quoting of CSV fields *)

Lemma double_quotes_inj a : forall b, double_quotes a = double_quotes b -> a = b.
Proof.
  induction a as [|c a IH]; intros [|d b]; cbn [double_quotes].
  - reflexivity.
  - destruct (Ascii.eqb d QUOTE); discriminate.
  - destruct (Ascii.eqb c QUOTE); discriminate.
  - destruct (Ascii.eqb c QUOTE) eqn:Hc, (Ascii.eqb d QUOTE) eqn:Hd.
    + apply Ascii.eqb_eq in Hc, Hd. subst. intros [= H]. f_equal. now apply IH.
    + intros [= <- _]. rewrite Ascii.eqb_refl in Hd. discriminate.
    + intros [= -> _]. rewrite Ascii.eqb_refl in Hc. discriminate.
    + intros [= <- H]. f_equal. now apply IH.
Qed.

Lemma append_one_inj x : forall y c, x +:+ String c "" = y +:+ String c "" -> x = y.
Proof.
  induction x as [|a x IH]; intros [|b y] c; rewrite ?append_cons.
  - reflexivity.
  - change ("" +:+ String c "") with (String c ""). intros [= _ H].
    destruct y; discriminate.
  - change ("" +:+ String c "") with (String c ""). intros [= _ H].
    destruct x; discriminate.
  - intros [= <- H]. f_equal. eapply IH. exact H.
Qed.

Lemma unquoted_no_quote c s : needs_quotes (String c s) = false -> c <> QUOTE.
Proof.
  unfold needs_quotes. cbn [Text.all_chars]. intros H ->.
  rewrite negb_false_iff in H. cbn in H. discriminate.
Qed.

(** The writer's quoting is unambiguous: two fields written alike are the
    same field.  A field without comma, quote, CR or LF is written as it is. *)
Theorem csv_field_injective (a b : string) :
  (csv_field a = csv_field b -> a = b)
  /\ (needs_quotes a = false -> csv_field a = a).
Proof.
  split; [|intros H; unfold csv_field; now rewrite H].
  unfold csv_field.
  destruct (needs_quotes a) eqn:Ha, (needs_quotes b) eqn:Hb.
  - intros [= H]. apply append_one_inj in H. now apply double_quotes_inj.
  - intros <-. exfalso. now apply (unquoted_no_quote _ _ Hb).
  - intros ->. exfalso. now apply (unquoted_no_quote _ _ Ha).
  - trivial.
Qed.

Lemma csv_field_injective_witness :
  csv_field "Direct Debit ABC" = "Direct Debit ABC".
Proof.
  apply (proj2 (csv_field_injective "Direct Debit ABC" "")). reflexivity.
Defined.

(** ** File names *)

Lemma rsplit1_spec c s a b :
  rsplit1 c s = Some (a, b) -> s = a +:+ String c b /\ has_char c b = false.
Proof.
  revert a b. induction s as [|d s IH]; intros a b; cbn [rsplit1]; [discriminate|].
  destruct (rsplit1 c s) as [[a' b']|] eqn:E.
  - intros [= <- <-]. destruct (IH a' b' eq_refl) as [-> H].
    split; [reflexivity | exact H].
  - destruct (Ascii.eqb d c) eqn:Hd; [|discriminate].
    intros [= <- <-]. apply Ascii.eqb_eq in Hd as ->. split; [reflexivity|].
    clear IH. revert E. clear. induction s as [|e s IH]; [reflexivity|].
    cbn [rsplit1]. destruct (rsplit1 c s) as [[? ?]|]; [discriminate|].
    destruct (Ascii.eqb e c) eqn:He; [discriminate|]. intros _.
    unfold has_char in *. cbn [Text.all_chars]. rewrite He. cbn [negb andb].
    now apply IH.
Qed.

Lemma rsplit1_none c s : has_char c s = false -> rsplit1 c s = None.
Proof.
  unfold has_char. induction s as [|d s IH]; [reflexivity|].
  cbn [Text.all_chars rsplit1]. rewrite negb_false_iff, andb_true_iff.
  intros [Hd Hs]. rewrite IH by now rewrite Hs.
  apply negb_true_iff in Hd. now rewrite Hd.
Qed.

Lemma rsplit1_app c a b :
  has_char c b = false -> rsplit1 c (a +:+ String c b) = Some (a, b).
Proof.
  intros Hb. induction a as [|d a IH].
  - change ("" +:+ String c b) with (String c b). cbn [rsplit1].
    now rewrite (rsplit1_none c b Hb), Ascii.eqb_refl.
  - rewrite append_cons. cbn [rsplit1]. now rewrite IH.
Qed.

Lemma has_char_app c a b : has_char c (a +:+ String c b) = true.
Proof.
  unfold has_char. rewrite all_chars_app. cbn [Text.all_chars].
  rewrite Ascii.eqb_refl. cbn [negb andb]. now rewrite andb_false_r.
Qed.

Lemma pdf_has_no_dot ext : Text.lower ext = "pdf" -> has_char "." ext = false.
Proof.
  destruct ext as [|a [|b [|c [|? ?]]]]; try discriminate.
  cbn [Text.lower Text.map_chars]. intros [= Ha Hb Hc].
  unfold has_char. cbn [Text.all_chars].
  destruct (Ascii.eqb a ".") eqn:Ea;
    [apply Ascii.eqb_eq in Ea; subst; discriminate|].
  destruct (Ascii.eqb b ".") eqn:Eb;
    [apply Ascii.eqb_eq in Eb; subst; discriminate|].
  destruct (Ascii.eqb c ".") eqn:Ec;
    [apply Ascii.eqb_eq in Ec; subst; discriminate|].
  reflexivity.
Qed.

(** X23. [allowed_file] accepts exactly the names that end in a full stop
    followed by "pdf" in any mix of cases. *)
Theorem allowed_file_iff (filename : string) :
  allowed_file filename = true
  <-> exists stem ext, filename = stem +:+ "." +:+ ext /\ Text.lower ext = "pdf".
Proof.
  unfold allowed_file. split.
  - intros H. apply andb_true_iff in H as [_ H].
    destruct (rsplit1 "." filename) as [[stem ext]|] eqn:E; [|discriminate].
    apply String.eqb_eq in H. apply rsplit1_spec in E as [-> _].
    exists stem, ext. split; [reflexivity | exact H].
  - intros (stem & ext & -> & H).
    change (stem +:+ "." +:+ ext) with (stem +:+ String "." ext).
    rewrite has_char_app, rsplit1_app by now apply pdf_has_no_dot.
    rewrite H. reflexivity.
Qed.

Example allowed_file_examples :
  allowed_file "statement.PDF" = true /\ allowed_file "a.pdf.txt" = false
  /\ allowed_file "pdf" = false /\ allowed_file ".pdf" = true.
Proof. repeat split. Qed.

Lemma split1_app c a b :
  has_char c a = false -> split1 c (a +:+ String c b) = Some (a, b).
Proof.
  unfold has_char. induction a as [|d a IH]; intros H.
  - change ("" +:+ String c b) with (String c b). cbn [split1].
    now rewrite Ascii.eqb_refl.
  - cbn [Text.all_chars] in H. rewrite negb_false_iff, andb_true_iff in H.
    destruct H as [Hd Ha]. apply negb_true_iff in Hd.
    rewrite append_cons. cbn [split1]. rewrite Hd, IH by now rewrite Ha.
    reflexivity.
Qed.

(** X24. The name under which a CSV is sent is the name it had before the
    batch id was put in front: for a batch id without underscore, taking the
    download name of the stored name gives back the CSV name, whatever
    underscores that name holds. *)
Theorem download_name_round_trip (batch_id csv_filename : string) :
  has_char "_" batch_id = false ->
  download_name (stored_name batch_id csv_filename) = csv_filename.
Proof.
  intros H. unfold download_name, stored_name.
  change (batch_id +:+ "_" +:+ csv_filename)
    with (batch_id +:+ String "_" csv_filename).
  now rewrite has_char_app, split1_app.
Qed.

Lemma download_name_round_trip_witness :
  download_name (stored_name "3f2a9c1e" "my_statement.csv") = "my_statement.csv".
Proof.
  apply (download_name_round_trip "3f2a9c1e" "my_statement.csv"). reflexivity.
Defined.
